(** * probe-lab/go-commons: the HTTP middleware pipeline, the JSON envelope,
      the gRPC server configuration and the pointer helper, embedded in Rocq.

    Go packages become modules ([Ptr], [Grpc], [Http]).  Go's [int] is a
    64-bit two's complement integer: it is a [Z] here, and the one place
    where the code adds to an [int] ([written += n]) wraps around explicitly.
    Go strings are [string], byte slices are [list byte], Go maps are stdpp
    [gmap]s.

    All definitions come first; the theorems follow. *)

From Stdlib Require Import ZArith String Ascii Strings.Byte List Lia.
From Stdlib Require Import DecimalString.
From stdpp Require Import base option list strings gmap.

Local Open Scope Z_scope.
Local Open Scope string_scope.
Set Warnings "-register-all".

(* ===================================================================== *)
(** ** Package ptr *)
(* ===================================================================== *)

Module Ptr.
Section From.
(** A [comparable] type parameter: [T] with Go's [==] on it, and its zero
    value [*new(T)].  [==] is whatever the language defines for [T]: on
    floating-point types it is not the identity of values (the two zeros are
    [==], a NaN is [==] to nothing).  A comparison with the zero value does
    not panic: a panic needs two interface values of one dynamic type that
    is not comparable, and the interfaces inside a zero value are nil.
    A [*T] is [option T]: [None] is the nil pointer, [Some x] a pointer to a
    cell that holds [x]. *)
Context {T : Type}.
Variable eq : T -> T -> bool.
Variable zero : T.

(** [func From[T comparable](t T) *T] *)
Definition From (t : T) : option T :=
  if eq t zero then None else Some t.
End From.

(** A floating-point type, as far as [==] tells its values apart: the two
    zeros, one other number, a NaN. *)
Inductive float := PosZero | NegZero | One | NaN.

Definition float_eq (a b : float) : bool :=
  match a, b with
  | NaN, _ | _, NaN => false
  | One, One => true
  | One, _ | _, One => false
  | _, _ => true
  end.
End Ptr.

(* ===================================================================== *)
(** ** Package grpc: the server configuration *)
(* ===================================================================== *)

Module Grpc.

(** [net.Listener] is an interface; only whether the field is nil matters
    to [Validate].  A non-nil listener is named by its address. *)
Definition Listener := string.

Record ServerConfig := {
  Listener_ : option Listener;
  Host : string;
  Port : Z
}.

(** [func (cfg *ServerConfig) Validate() error]: the receiver is a pointer
    and may be nil; the result is [None] for a nil error and the message of
    the error otherwise. *)
Definition Validate (cfg : option ServerConfig) : option string :=
  match cfg with
  | None => Some "config is nil"
  | Some cfg =>
    match Listener_ cfg with
    | Some _ =>
      if negb (String.eqb (Host cfg) "") then
        Some "listener and host cannot both be set"
      else if negb (Port cfg =? 0)%Z then
        Some "listener and port cannot both be set"
      else None
    | None =>
      if String.eqb (Host cfg) "" then
        Some "no listener provided and host is empty"
      else if (Port cfg <? 0)%Z then
        Some "no listener provided and port is negative"
      else None
    end
  end.

End Grpc.

(* ===================================================================== *)
(** ** Package http: response writers *)
(* ===================================================================== *)

Module Http.

(** *** Go's [int] *)

Definition int_wrap (z : Z) : Z := (z + 2 ^ 63) mod 2 ^ 64 - 2 ^ 63.
Definition int_add (a b : Z) : Z := int_wrap (a + b).

(** [strconv.Itoa] *)
Definition Itoa (z : Z) : string := NilZero.string_of_int (Z.to_int z).

(** *** Package strings (ASCII) *)

Fixpoint HasPrefix (s prefix : string) : bool :=
  match prefix with
  | EmptyString => true
  | String c prefix' =>
    match s with
    | EmptyString => false
    | String d s' => Ascii.eqb c d && HasPrefix s' prefix'
    end
  end.

Fixpoint Contains (s substr : string) : bool :=
  HasPrefix s substr ||
  match s with
  | EmptyString => false
  | String _ s' => Contains s' substr
  end.

Definition lower (c : ascii) : ascii :=
  let n := nat_of_ascii c in
  if ((65 <=? n) && (n <=? 90))%nat then ascii_of_nat (n + 32) else c.

Fixpoint ToLower (s : string) : string :=
  match s with
  | EmptyString => EmptyString
  | String c s' => String (lower c) (ToLower s')
  end.

(** *** [http.Header]: a map from (canonical) header names to value lists *)

Abbreviation HeaderMap := (gmap string (list string)).

Definition Get (h : HeaderMap) (key : string) : string :=
  match h !! key with
  | Some (v :: _) => v
  | _ => ""
  end.
Definition Set_ (key value : string) (h : HeaderMap) : HeaderMap :=
  <[key := [value]]> h.
Definition Add (key value : string) (h : HeaderMap) : HeaderMap :=
  <[key := (default [] (h !! key) ++ [value])%list]> h.
Definition Del (key : string) (h : HeaderMap) : HeaderMap := delete key h.

Definition RequestIDHeader : string := "X-Request-Id".
Definition ApiKeyHeader : string := "X-API-Key".
Definition StatusOK : Z := 200.
Definition StatusUnauthorized : Z := 401.
Definition StatusInternalServerError : Z := 500.

(** The part of [*http.Request] the middlewares read.  [CtxRequestID] is the
    value stored in the request context under [requestIdCtxKey]. *)
Record Request := {
  Method : string;
  URLPath : string;
  ReqHeader : HeaderMap;
  CtxRequestID : option string
}.

(** *** The writers

    The server's own writer, as [net/http] and [httptest] implement it: the
    first status code is the one sent, a write before any status sends 200,
    every write is accepted in full.  [implFlusher] says whether the
    concrete type has a [Flush] method. *)
Record Conn := {
  implFlusher : bool;
  hdr : HeaderMap;
  sent : option Z;
  body : list byte;
  flushes : nat
}.

Definition conn_WriteHeader (c : Conn) (statusCode : Z) : Conn :=
  {| implFlusher := implFlusher c; hdr := hdr c;
     sent := match sent c with Some s => Some s | None => Some statusCode end;
     body := body c; flushes := flushes c |}.

Definition conn_Write (c : Conn) (p : list byte) : Conn :=
  let c := conn_WriteHeader c StatusOK in
  {| implFlusher := implFlusher c; hdr := hdr c; sent := sent c;
     body := (body c ++ p)%list; flushes := flushes c |}.

Definition conn_Flush (c : Conn) : Conn :=
  let c := conn_WriteHeader c StatusOK in
  {| implFlusher := implFlusher c; hdr := hdr c; sent := sent c;
     body := body c; flushes := S (flushes c) |}.

Definition conn_Header (f : HeaderMap -> HeaderMap) (c : Conn) : Conn :=
  {| implFlusher := implFlusher c; hdr := f (hdr c); sent := sent c;
     body := body c; flushes := flushes c |}.

(** [*gzip.Writer] of [compress/gzip]: where it writes to ([io.Discard], or
    the writer it was reset to, which in this package is always the
    [http.ResponseWriter] held by the enclosing [gzipResponseWriter]), whether
    the ten-byte gzip header went out, the bytes fed to the compressor since
    the last reset, and whether it was closed. *)
Inductive Sink := Discard | ToResponseWriter.

Record gzipWriter := {
  target : Sink;
  wroteHeader : bool;
  fed : list byte;
  closed : bool
}.

(** [gzw.Reset(w)] *)
Definition gz_Reset (w : Sink) : gzipWriter :=
  {| target := w; wroteHeader := false; fed := []; closed := false |}.

(** The gzip member header of a writer with no name, comment or time, at a
    level other than 1 and 9. *)
Definition gzipHeader : list byte :=
  [x1f; x8b; x08; x00; x00; x00; x00; x00; x00; xff].

(** An [http.ResponseWriter] is one of: the server's writer; a
    [*ResponseWriter] of this package (fields [writer], [status], [written],
    [user]; the [flusher] field is the same object as [writer]); a
    [*gzipResponseWriter] (embedded [ResponseWriter], [gzw]).  Every wrapper
    holds the only reference to what it wraps while the inner handler runs,
    so the object graph is this tree and a method call returns the tree as
    the call leaves it. *)
Inductive Writer :=
| ConnWriter (c : Conn)
| ResponseWriter (writer : Writer) (status written : Z) (user : string)
| gzipResponseWriter (rw : Writer) (gzw : gzipWriter).

(** Field reads on a pointer known to be a [*ResponseWriter]. *)
Definition status (w : Writer) : Z :=
  match w with ResponseWriter _ s _ _ => s | _ => 0 end.
Definition written (w : Writer) : Z :=
  match w with ResponseWriter _ _ n _ => n | _ => 0 end.
Definition user (w : Writer) : string :=
  match w with ResponseWriter _ _ _ u => u | _ => "" end.
Definition writer (w : Writer) : Writer :=
  match w with
  | ResponseWriter u _ _ _ => u
  | gzipResponseWriter u _ => u
  | ConnWriter _ => w
  end.
(** [wrapped.user = user] *)
Definition set_user (w : Writer) (u : string) : Writer :=
  match w with ResponseWriter x s n _ => ResponseWriter x s n u | _ => w end.

(** [w.Header()] returns the header map of the server's writer; reading
    it is [Header], changing it through the returned reference is
    [Header_update]. *)
Fixpoint Header (w : Writer) : HeaderMap :=
  match w with
  | ConnWriter c => hdr c
  | ResponseWriter u _ _ _ => Header u
  | gzipResponseWriter u _ => Header u
  end.

Fixpoint Header_update (f : HeaderMap -> HeaderMap) (w : Writer) : Writer :=
  match w with
  | ConnWriter c => ConnWriter (conn_Header f c)
  | ResponseWriter u s n usr => ResponseWriter (Header_update f u) s n usr
  | gzipResponseWriter u g => gzipResponseWriter (Header_update f u) g
  end.

(** [func (w *ResponseWriter) WriteHeader(statusCode int)]; the gzip writer
    inherits the method of the writer it embeds. *)
Fixpoint WriteHeader (w : Writer) (statusCode : Z) : Writer :=
  match w with
  | ConnWriter c => ConnWriter (conn_WriteHeader c statusCode)
  | ResponseWriter u _ n usr =>
      ResponseWriter (WriteHeader u statusCode) statusCode n usr
  | gzipResponseWriter u g => gzipResponseWriter (WriteHeader u statusCode) g
  end.

(** [Write]: the writer after the call and the count [n] it returns.
    [func (w *ResponseWriter) Write] adds the count of the writer below to
    [written]; [func (g *gzipResponseWriter) Write] is [g.gzw.Write]: the
    gzip header goes to the target before the first data, the data is
    buffered by the compressor, and the count is the length of the data. *)
Fixpoint Write (w : Writer) (p : list byte) : Writer * Z :=
  match w with
  | ConnWriter c => (ConnWriter (conn_Write c p), Z.of_nat (length p))
  | ResponseWriter u s n usr =>
      let '(u', k) := Write u p in
      (ResponseWriter u' s (int_add n k) usr, k)
  | gzipResponseWriter u g =>
      if closed g then (w, 0)
      else
        let u' :=
          if wroteHeader g then u
          else match target g with
               | Discard => u
               | ToResponseWriter => fst (Write u gzipHeader)
               end in
        (gzipResponseWriter u'
           {| target := target g; wroteHeader := true;
              fed := (fed g ++ p)%list; closed := false |},
         Z.of_nat (length p))
  end.

(** The [http.Flusher] type assertion. *)
Definition isFlusher (w : Writer) : bool :=
  match w with
  | ConnWriter c => implFlusher c
  | ResponseWriter _ _ _ _ => true
  | gzipResponseWriter _ _ => true
  end.

(** [func (w *ResponseWriter) Flush()] and
    [func (g *gzipResponseWriter) Flush()]. *)
Fixpoint Flush (w : Writer) : Writer :=
  match w with
  | ConnWriter c => if implFlusher c then ConnWriter (conn_Flush c) else w
  | ResponseWriter u s n usr => ResponseWriter (Flush u) s n usr
  | gzipResponseWriter u g =>
      if isFlusher u then gzipResponseWriter (Flush u) g else w
  end.

(** [func (w *ResponseWriter) GroupedStatus() int]; Go's [/] truncates. *)
Definition GroupedStatus (w : Writer) : Z := Z.quot (status w) 100 * 100.

Inductive result (A : Type) :=
| Ok (a : A)
| Err (msg : string).
Arguments Ok {A} a.
Arguments Err {A} msg.

(** [func WrapResponseWriter(rw http.ResponseWriter)], returning a
    [*ResponseWriter] or an error. *)
Definition WrapResponseWriter (rw : Writer) : result Writer :=
  match rw with
  | ResponseWriter _ _ _ _ => Ok rw
  | _ =>
    if isFlusher rw then Ok (ResponseWriter rw StatusOK 0 "")
    else Err "ResponseWriter does not implement http.Flusher"
  end.

(** After a middleware called the inner handler with [wrapped], this is its
    own argument [rw] again: [wrapped] itself when [rw] was already a
    [*ResponseWriter], the [writer] field of [wrapped] when it was not. *)
Definition released (rw wrapped : Writer) : Writer :=
  match rw with
  | ResponseWriter _ _ _ _ => wrapped
  | _ => writer wrapped
  end.

(** *** Handlers, middlewares and the default logger

    A handler runs against the writer it is given and the records handed to
    [slog]'s default logger so far, and leaves both as they are when it
    returns.  Handlers that panic are outside this model. *)

Inductive Level := LevelDebug | LevelInfo | LevelWarn | LevelError.

Inductive Attr := AString (s : string) | AInt (n : Z).

(** One call of [logger.Log]: level, message, and the attributes in order
    (those added by [logger.With] first).  The elapsed time attribute of the
    access log is a clock reading and is left out. *)
Record LogRecord := {
  level : Level;
  message : string;
  attrs : list (string * Attr)
}.

Abbreviation Handler :=
  (Writer -> Request -> list LogRecord -> Writer * list LogRecord)%type.
Abbreviation Middleware := (Handler -> Handler).

(** [func MiddlewareChain(mws ...Middleware) Middleware].  [chain_loop] is
    the loop [for i := len(mws) - 1; i >= 0; i-- { next = mws[i](next) }]
    with [n = i + 1] iterations left. *)
Fixpoint chain_loop (mws : list Middleware) (n : nat) (next : Handler) : Handler :=
  match n with
  | O => next
  | S i =>
    match mws !! i with
    | Some mw => chain_loop mws i (mw next)
    | None => chain_loop mws i next
    end
  end.

Definition MiddlewareChain (mws : list Middleware) : Middleware :=
  fun next => chain_loop mws (length mws) next.

(** [http.Error] of [net/http]. *)
Definition http_Error (w : Writer) (error : string) (code : Z) : Writer :=
  let w := Header_update (Del "Content-Length") w in
  let w := Header_update (Set_ "Content-Type" "text/plain; charset=utf-8") w in
  let w := Header_update (Set_ "X-Content-Type-Options" "nosniff") w in
  let w := WriteHeader w code in
  fst (Write w (list_byte_of_string error ++ [x0a])%list).

(** [func MiddlewareLogging(next http.Handler) http.Handler] *)
Definition MiddlewareLogging (next : Handler) : Handler :=
  fun rw req logs =>
    match WrapResponseWriter rw with
    | Err err => (http_Error rw err StatusInternalServerError, logs)
    | Ok wrapped =>
      let '(wrapped, logs) := next wrapped req logs in
      let with_ :=
        match CtxRequestID req with
        | Some reqID => [("request_id", AString reqID)]
        | None => []
        end in
      let logLevel :=
        if (400 <=? status wrapped)%Z && (status wrapped <? 500)%Z then LevelWarn
        else if (500 <=? status wrapped)%Z then LevelError
        else LevelInfo in
      (released rw wrapped,
       (logs ++ [ {| level := logLevel; message := "Served";
                     attrs := (with_ ++
                               [("method", AString (Method req));
                                ("path", AString (URLPath req));
                                ("status", AInt (status wrapped));
                                ("size", AInt (written wrapped));
                                ("user", AString (user wrapped))])%list |} ])%list)
    end.

(** *** The JSON envelope ([resp.go])

    JSON documents, and the Go values [Encode] is called with.  A value is a
    [*ErrResponse] (possibly nil), a non-nil value of another type that
    implements [error], or anything else.  [Plain] is the data [encoding/json]
    sees: nil pointers, interfaces and slices, booleans, integers, strings,
    slices, maps and structs. *)
Inductive Json :=
| JNull
| JBool (b : bool)
| JNumber (n : Z)
| JString (s : string)
| JArray (items : list Json)
| JObject (fields : list (string * Json)).

Inductive Plain :=
| PNil
| PBool (b : bool)
| PInt (n : Z)
| PString (s : string)
| PSlice (items : list Plain)
| PMap (entries : list (string * Plain))
| PStruct (fields : list (string * Plain)).

Record ErrResponse := { Message : string }.

(** [func (e *ErrResponse) Error() string] *)
Definition ErrResponse_Error (e : ErrResponse) : string := Message e.

Inductive Value :=
| ErrResponsePtr (p : option ErrResponse)
| ErrorValue (msg : string) (zero : Plain)
| PlainValue (d : Plain).

(** [type Response[T any] struct]: [Data T] and [Error *ErrResponse]. *)
Record Response := {
  Data : Plain;
  Error : option ErrResponse
}.

(** The [switch] of [Encode].  A field the struct literal does not name holds
    the zero value of its type: nil for [Error], and for [Data] the zero value
    of [T], which is nil when [T] is [*ErrResponse] and is carried by
    [ErrorValue] for the other error types. *)
Definition envelope (v : Value) : Response :=
  match v with
  | ErrResponsePtr val => {| Data := PNil; Error := val |}
  | ErrorValue msg zero => {| Data := zero; Error := Some {| Message := msg |} |}
  | PlainValue d => {| Data := d; Error := None |}
  end.

(** What [encoding/json] does with the struct tags [json:"data,omitempty"],
    [json:"error,omitempty"] and [json:"message"]: a field tagged [omitempty]
    is left out when it is false, 0, a nil pointer or interface, or an empty
    slice, map or string. *)
Definition isEmptyValue (d : Plain) : bool :=
  match d with
  | PNil => true
  | PBool b => negb b
  | PInt n => (n =? 0)%Z
  | PString s => String.eqb s ""
  | PSlice items => match items with [] => true | _ => false end
  | PMap entries => match entries with [] => true | _ => false end
  | PStruct _ => false
  end.

Fixpoint plain_json (d : Plain) : Json :=
  match d with
  | PNil => JNull
  | PBool b => JBool b
  | PInt n => JNumber n
  | PString s => JString s
  | PSlice items => JArray (List.map plain_json items)
  | PMap entries => JObject (List.map (fun kv => (fst kv, plain_json (snd kv))) entries)
  | PStruct fields => JObject (List.map (fun kv => (fst kv, plain_json (snd kv))) fields)
  end.

Definition ErrResponse_json (e : ErrResponse) : Json :=
  JObject [("message", JString (Message e))].

Definition Response_json (resp : Response) : Json :=
  JObject ((if isEmptyValue (Data resp) then []
            else [("data", plain_json (Data resp))]) ++
           match Error resp with
           | None => []
           | Some e => [("error", ErrResponse_json e)]
           end)%list.

Section Library.
(** Functions of the Go standard library whose output is taken as given:
    the text [encoding/json] renders a document to, [strconv.Quote] (the
    verb [%q]), the DEFLATE stream [compress/flate] produces at level 4 for
    the bytes fed to it, and the eight-byte gzip footer for those bytes. *)
Variable json_text : Json -> list byte.
Variable Quote : string -> string.
Variable deflate : list byte -> list byte.
Variable gzipFooter : list byte -> list byte.

(** [func Encode[T any](rw http.ResponseWriter, status int, v T)].  The
    encoder writes the document and a newline in one [Write]. *)
Definition Encode (rw : Writer) (status : Z) (v : Value) : Writer :=
  let rw := Header_update (Set_ "Content-Type" "application/json") rw in
  let rw := WriteHeader rw status in
  let resp := envelope v in
  fst (Write rw (json_text (Response_json resp) ++ [x0a])%list).

(** [func EncodeErr(rw http.ResponseWriter, status int, errMsg string)] *)
Definition EncodeErr (rw : Writer) (status : Z) (errMsg : string) : Writer :=
  let errResp := {| Message := errMsg |} in
  Encode rw status (ErrResponsePtr (Some errResp)).

(** *** [MiddlewareAuthentication]

    The loop [for i, key := range keys { lookup[key] = users[i] }], from
    index [i] on; [None] is the index-out-of-range panic. *)
Fixpoint build_lookup (i : nat) (keys users : list string)
    (lookup : gmap string string) : option (gmap string string) :=
  match keys with
  | [] => Some lookup
  | key :: keys' =>
    match users !! i with
    | None => None
    | Some u => build_lookup (S i) keys' users (<[key := u]> lookup)
    end
  end.

(** The handler the middleware returns, for a lookup table it only reads. *)
Definition authenticate (lookup : gmap string string) (next : Handler) : Handler :=
  fun rw req logs =>
    let key := Get (ReqHeader req) ApiKeyHeader in
    if String.eqb key "" then
      (EncodeErr rw StatusUnauthorized
         ("please set the " ++ ApiKeyHeader ++ " header"), logs)
    else
      match lookup !! key with
      | None =>
        (EncodeErr rw StatusUnauthorized ("unrecognized API key " ++ Quote key),
         logs)
      | Some usr =>
        match WrapResponseWriter rw with
        | Err err => (http_Error rw err StatusInternalServerError, logs)
        | Ok wrapped =>
          let wrapped := set_user wrapped usr in
          let '(wrapped, logs) := next wrapped req logs in
          (released rw wrapped, logs)
        end
      end.

(** [func MiddlewareAuthentication(keys []string, users []string)]: the table
    is built before the middleware is returned. *)
Definition MiddlewareAuthentication (keys users : list string) : option Middleware :=
  match build_lookup 0 keys users ∅ with
  | None => None
  | Some lookup => Some (authenticate lookup)
  end.

(** *** [MiddlewareGZip]

    [gzw.Close()] of [compress/gzip] for the writer of a
    [gzipResponseWriter]: nothing when already closed; otherwise the header if
    it did not go out yet, the compressed stream and the footer are written to
    the target.  The result is the writer below, as the writes leave it. *)
Definition emit (t : Sink) (rw : Writer) (p : list byte) : Writer :=
  match t with
  | Discard => rw
  | ToResponseWriter => fst (Write rw p)
  end.

Definition gz_Close (rw : Writer) (g : gzipWriter) : Writer * gzipWriter :=
  if closed g then (rw, g)
  else
    let rw := if wroteHeader g then rw else emit (target g) rw gzipHeader in
    let rw := emit (target g) rw (deflate (fed g)) in
    let rw := emit (target g) rw (gzipFooter (fed g)) in
    (rw, {| target := target g; wroteHeader := true; fed := fed g; closed := true |}).

(** [gzw.Reset(w)] on the compressor below [wrapped], which is a
    [*ResponseWriter] around the [*gzipResponseWriter]. *)
Definition reset_gzw (t : Sink) (wrapped : Writer) : Writer :=
  match wrapped with
  | ResponseWriter (gzipResponseWriter rw _) s n usr =>
      ResponseWriter (gzipResponseWriter rw (gz_Reset t)) s n usr
  | _ => wrapped
  end.

(** The deferred function of [MiddlewareGZip]: it runs first when the
    handler returns. *)
Definition gzip_deferred (wrapped : Writer) : Writer :=
  let wrapped :=
    if (written wrapped <? 0)%Z then reset_gzw Discard wrapped else wrapped in
  if (written wrapped >? -1)%Z then
    Header_update (Set_ "Content-Length" (Itoa (written wrapped))) wrapped
  else wrapped.

(** [defer gzw.Close()], which runs last, seen from the caller: what is left
    is the caller's [rw].  ([defer gzPool.Put(gzw)] hands the compressor back
    to the pool; the next [Get] is followed by [Reset], so the pool holds no
    state that a request can observe.) *)
Definition close_gzw (wrapped : Writer) : Writer :=
  match wrapped with
  | ResponseWriter (gzipResponseWriter rw g) _ _ _ => fst (gz_Close rw g)
  | _ => writer (writer wrapped)
  end.

(** [func MiddlewareGZip(next http.Handler) http.Handler] *)
Definition MiddlewareGZip (next : Handler) : Handler :=
  fun rw r logs =>
    if negb (Contains (Get (ReqHeader r) "Accept-Encoding") "gzip") then
      next rw r logs
    else if Contains (ToLower (Get (ReqHeader r) "Connection")) "upgrade" then
      next rw r logs
    else
      let gzw := gz_Reset ToResponseWriter in
      let gzrw := gzipResponseWriter rw gzw in
      match WrapResponseWriter gzrw with
      | Err err =>
        (fst (gz_Close (http_Error rw err StatusInternalServerError) gzw), logs)
      | Ok wrapped =>
        let wrapped := Header_update (Set_ "Content-Encoding" "gzip") wrapped in
        let wrapped := Header_update (Add "Vary" "Accept-Encoding") wrapped in
        let etag := Get (ReqHeader r) "ETag" in
        let wrapped :=
          if negb (String.eqb etag "") && negb (HasPrefix etag "W/") then
            Header_update (Set_ "ETag" ("W/" ++ etag)) wrapped
          else wrapped in
        let '(wrapped, logs) := next wrapped r logs in
        (close_gzw (gzip_deferred wrapped), logs)
      end.

End Library.

End Http.

(* ===================================================================== *)
(** ** Handlers and inputs used to exercise the middlewares *)
(* ===================================================================== *)

Module Fixtures.
Import Http.

(** Whether a writer is a [*ResponseWriter]. *)
Definition isWrapped (rw : Writer) : bool :=
  match rw with ResponseWriter _ _ _ _ => true | _ => false end.

(** The nesting [m1 (m2 (... (mn h)))]. *)
Definition nest (mws : list Middleware) (h : Handler) : Handler :=
  fold_right (fun (mw : Middleware) next => mw next) h mws.

(** What a handler does with its writer, one call at a time. *)
Inductive Call :=
| CallWriteHeader (statusCode : Z)
| CallWrite (p : list byte)
| CallFlush
| CallHeaderSet (key value : string).

Definition do_call (w : Writer) (c : Call) : Writer :=
  match c with
  | CallWriteHeader s => WriteHeader w s
  | CallWrite p => fst (Write w p)
  | CallFlush => Flush w
  | CallHeaderSet k v => Header_update (Set_ k v) w
  end.

Definition run (calls : list Call) (w : Writer) : Writer :=
  fold_left do_call calls w.

(** The status codes passed to [WriteHeader], in call order, and the sum of
    the counts the [Write] calls return. *)
Definition codes (calls : list Call) : list Z :=
  omap (fun c => match c with CallWriteHeader s => Some s | _ => None end) calls.

Fixpoint counts (calls : list Call) (w : Writer) : Z :=
  match calls with
  | [] => 0
  | c :: calls' =>
    (match c with CallWrite p => snd (Write w p) | _ => 0 end
     + counts calls' (do_call w c))%Z
  end.

(** A handler that makes the given calls and logs nothing. *)
Definition script (calls : list Call) : Handler :=
  fun rw _ logs => (run calls rw, logs).

(** A handler that only logs that it was invoked. *)
Definition mark (name : string) : LogRecord :=
  {| level := LevelDebug; message := name; attrs := [] |}.
Definition probe (name : string) : Handler :=
  fun rw _ logs => (rw, (logs ++ [mark name])%list).

(** A middleware that logs on the way in and on the way out. *)
Definition tracer (name : string) : Middleware :=
  fun next rw r logs =>
    let '(rw, logs) := next rw r (logs ++ [mark ("in:" ++ name)])%list in
    (rw, (logs ++ [mark ("out:" ++ name)])%list).

Definition conn (flusher : bool) : Writer :=
  ConnWriter {| implFlusher := flusher; hdr := ∅; sent := None;
                body := []; flushes := 0 |}.

Definition request (headers : list (string * string)) : Request :=
  {| Method := "GET"; URLPath := "/";
     ReqHeader := list_to_map (List.map (fun kv => (fst kv, [snd kv])) headers);
     CtxRequestID := None |}.

(** Instances of the library functions for evaluating the middlewares on
    concrete requests: [quote] is [strconv.Quote] on printable ASCII without
    quotes and backslashes; [no_text] renders every document as the empty
    text (the theorems hold for every renderer, the examples need one). *)
Definition dquote : string := String (ascii_of_nat 34) EmptyString.
Definition quote (s : string) : string := dquote ++ s ++ dquote.
Definition no_text (_ : Json) : list byte := [].

End Fixtures.

(* ===================================================================== *)
(** ** Package http: the other middlewares, and the decoders of [resp.go] *)
(* ===================================================================== *)

Module Middleware.
Import Http.

(** [filepath.Ext]: the loop runs from the last byte of the path towards the
    first and stops at a separator; at a dot it returns the path from that
    dot on.  [suffix] is the part of the path behind the bytes still to be
    examined. *)
Fixpoint ext_scan (rev_path : list ascii) (suffix : string) : string :=
  match rev_path with
  | [] => ""
  | c :: rest =>
    if Ascii.eqb c "/" then ""
    else if Ascii.eqb c "." then String c suffix
    else ext_scan rest (String c suffix)
  end.

Definition Ext (path : string) : string :=
  ext_scan (rev (list_ascii_of_string path)) "".

(** [func MiddlewareContentType(next http.Handler) http.Handler] *)
Definition MiddlewareContentType (next : Handler) : Handler :=
  fun rw r logs =>
    let ext := Ext (URLPath r) in
    let rw :=
      if String.eqb ext ".yaml" || String.eqb ext ".yml" then
        Header_update (Set_ "Content-Type" "application/x-yaml") rw
      else rw in
    next rw r logs.

(** [r.WithContext(ctx)], for a context that differs in the request id. *)
Definition WithRequestID (r : Request) (id : option string) : Request :=
  {| Method := Method r; URLPath := URLPath r; ReqHeader := ReqHeader r;
     CtxRequestID := id |}.

(** [func MiddlewareRequestID(next http.Handler) http.Handler].  [newRandom]
    is what [uuid.NewRandom] returns for the request: the text of the
    identifier, or [None] for an error. *)
Definition MiddlewareRequestID (newRandom : option string) (next : Handler) : Handler :=
  fun w r logs =>
    let ctx := CtxRequestID r in
    let requestID := Get (ReqHeader r) RequestIDHeader in
    let ctx :=
      if negb (String.eqb requestID "") then Some requestID
      else match newRandom with
           | Some id => Some id
           | None => ctx
           end in
    next w (WithRequestID r ctx) logs.

(** [func MiddlewareMetric(provider metric.MeterProvider) Middleware].  A
    provider either creates an instrument or returns an error; the calls on
    the two instruments during one request are listed in order. *)
Record MeterProvider := {
  Int64CounterErr : option string;
  Int64GaugeErr : option string
}.

Inductive Measurement :=
| GaugeRecord (instrument : string) (value : Z)
| CounterAdd (instrument : string) (incr : Z) (statusAttr : Z).

(** [Err] is the panic of the constructor, with its message. *)
Definition MiddlewareMetric (provider : MeterProvider)
    : result (Handler -> Writer -> Request -> list LogRecord ->
              Writer * list LogRecord * list Measurement) :=
  match Int64CounterErr provider with
  | Some err => Err ("init requests int64 counter: " ++ err)
  | None =>
    match Int64GaugeErr provider with
    | Some err => Err ("init in_flight int64 counter: " ++ err)
    | None =>
      Ok (fun next rw r logs =>
            match WrapResponseWriter rw with
            | Err err =>
              (http_Error rw err StatusInternalServerError, logs,
               [GaugeRecord "in_flight" 1; GaugeRecord "in_flight" (-1)])
            | Ok wrapped =>
              let '(wrapped, logs) := next wrapped r logs in
              (released rw wrapped, logs,
               [GaugeRecord "in_flight" 1;
                CounterAdd "requests" 1 (GroupedStatus wrapped);
                GaugeRecord "in_flight" (-1)])
            end)
    end
  end.

(** *** [Decode] and [DecodeAndClose]

    An [io.ReadCloser]: the bytes it delivers, whether [Close] was called, and
    the error [Close] returns. *)
Record ReadCloser := {
  content : list byte;
  isClosed : bool;
  closeErr : option string
}.

Definition Close (rc : ReadCloser) : ReadCloser * option string :=
  ({| content := content rc; isClosed := true; closeErr := closeErr rc |},
   closeErr rc).

Section Decoders.
Context {T : Type}.
(** [json.NewDecoder(r).Decode(&v)] on a [v] holding the zero value of [T]:
    what it leaves in [v], and its error. *)
Variable json_Decode : list byte -> T * option string.

(** [func Decode[T any](rw io.Reader) (T, error)] *)
Definition Decode (rw : list byte) : T * option string :=
  let '(v, err) := json_Decode rw in
  match err with
  | Some e => (v, Some ("decode json: " ++ e))
  | None => (v, None)
  end.

(** [func DecodeAndClose[T any](rw io.ReadCloser) (T, error)]: the reader
    after the call, and the results. *)
Definition DecodeAndClose (rw : ReadCloser) : ReadCloser * (T * option string) :=
  let '(data, err) := Decode (content rw) in
  match err with
  | Some e => (rw, (data, Some e))
  | None =>
    let '(rw, err) := Close rw in
    match err with
    | Some e => (rw, (data, Some ("close reader: " ++ e)))
    | None => (rw, (data, None))
    end
  end.
End Decoders.

End Middleware.

(* ===================================================================== *)
(** ** Package db: the project and network mapping *)
(* ===================================================================== *)

Module Db.
Import Http.

Section Mapping.
Context {T : Type}.
(** The zero value of [T], and the text [%T] prints for a slice of [T]. *)
Variable zero : T.
Variable typeName : string.
(** [strings.ToLower], taken as given: it lower-cases every Unicode letter. *)
Variable ToLower : string -> string.

(** [type Mapping[T any] map[string]map[string]T] *)
Abbreviation Mapping := (gmap string (gmap string T)).

Definition duplicate (project network : string) : LogRecord :=
  {| level := LevelWarn; message := "Duplicate network for same project";
     attrs := [("project", AString project); ("network", AString network)] |}.

(** The loop of [NewMapping] from index [i] on, over the projects that are
    left.  [None] is a panic: an index out of range, or a write to a nil
    inner map. *)
Fixpoint new_loop (i : nat) (projects networks : list string) (items : list T)
    (mapping : Mapping) (logs : list LogRecord)
    : option (Mapping * list LogRecord) :=
  match projects with
  | [] => Some (mapping, logs)
  | project :: projects' =>
    let project := ToLower project in
    match networks !! i, items !! i with
    | Some network, Some item =>
      let network := ToLower network in
      let mapping :=
        match mapping !! project with
        | Some _ => mapping
        | None => <[project := ∅]> mapping
        end in
      match mapping !! project with
      | None => None
      | Some inner =>
        let logs :=
          match inner !! network with
          | Some _ => (logs ++ [duplicate project network])%list
          | None => logs
          end in
        new_loop (S i) projects' networks items
          (<[project := <[network := item]> inner]> mapping) logs
      end
    | _, _ => None
    end
  end.

(** [func NewMapping[T any](projects []string, networks []string, items []T)]:
    the mapping or the error, and the log. *)
Definition NewMapping (projects networks : list string) (items : list T)
    (logs : list LogRecord) : option (result Mapping * list LogRecord) :=
  if negb (length projects =? length networks)%nat
     || negb (length networks =? length items)%nat then
    Some (Err ("projects (" ++ Itoa (Z.of_nat (length projects))
               ++ "), networks (" ++ Itoa (Z.of_nat (length networks))
               ++ ") and " ++ typeName ++ " ("
               ++ Itoa (Z.of_nat (length items))
               ++ ") must have the same length"), logs)
  else
    match new_loop 0 projects networks items ∅ logs with
    | None => None
    | Some (mapping, logs) => Some (Ok mapping, logs)
    end.

(** The item stored for a project and a network, if there is one. *)
Definition stored (d : Mapping) (project network : string) : option T :=
  match d !! project with
  | None => None
  | Some networks => networks !! network
  end.

(** [func (d Mapping[T]) Get(project string, network string) (T, bool)] *)
Definition Get (d : Mapping) (project network : string) : T * bool :=
  match d !! project with
  | None => (zero, false)
  | Some networks =>
    match networks !! network with
    | Some item => (item, true)
    | None => (zero, false)
    end
  end.

End Mapping.
End Db.

(* ===================================================================== *)
(** ** Package db: the ClickHouse configurations *)
(* ===================================================================== *)

Module ClickHouse.

Record ClickHouseBaseConfig := {
  Host : string;
  Port : Z;
  User : string;
  Pass : string;
  SSL : bool
}.

(** [func (cfg *ClickHouseBaseConfig) Validate() error]; the receiver may be
    nil. *)
Definition BaseConfig_Validate (cfg : option ClickHouseBaseConfig) : option string :=
  match cfg with
  | None => Some "config is nil"
  | Some cfg =>
    if String.eqb (Host cfg) "" then Some "host must not be empty"
    else if (Port cfg <=? 0)%Z then Some "port must be a positive integer"
    else if String.eqb (User cfg) "" then Some "user must not be empty"
    else if String.eqb (Pass cfg) "" then Some "password must not be empty"
    else None
  end.

Record ClickHouseConfig := {
  BaseConfig : option ClickHouseBaseConfig;
  Database : string
}.

(** [func DefaultClickHouseConfig(name string) *ClickHouseConfig] *)
Definition DefaultClickHouseConfig (name : string) : ClickHouseConfig :=
  {| BaseConfig := Some {| Host := "127.0.0.1"; Port := 9000; User := name;
                           Pass := "password"; SSL := false |};
     Database := name |}.

(** [func (cfg *ClickHouseConfig) Validate() error] *)
Definition Config_Validate (cfg : option ClickHouseConfig) : option string :=
  match cfg with
  | None => Some "config is nil"
  | Some cfg =>
    if String.eqb (Database cfg) "" then Some "database must not be empty"
    else BaseConfig_Validate (BaseConfig cfg)
  end.

Record ClickHouseMultiConfig := {
  MultiBaseConfig : option ClickHouseBaseConfig;
  Databases : list string
}.

(** [func DefaultClickHouseMultiConfig(name string) *ClickHouseMultiConfig] *)
Definition DefaultClickHouseMultiConfig (name : string) : ClickHouseMultiConfig :=
  let cfg := DefaultClickHouseConfig name in
  {| MultiBaseConfig := BaseConfig cfg; Databases := [name] |}.

(** The loop over the database names in [ClickHouseMultiConfig.Validate]: the
    error of the first empty name. *)
Fixpoint check_names (dbs : list string) : option string :=
  match dbs with
  | [] => None
  | db :: dbs' =>
    if String.eqb db "" then Some "database name must not be empty"
    else check_names dbs'
  end.

(** [func (cfg *ClickHouseMultiConfig) Validate() error] *)
Definition MultiConfig_Validate (cfg : option ClickHouseMultiConfig) : option string :=
  match cfg with
  | None => Some "config is nil"
  | Some cfg =>
    if (length (Databases cfg) =? 0)%nat then
      Some "at least one database must be specified"
    else
      match check_names (Databases cfg) with
      | Some err => Some err
      | None => BaseConfig_Validate (MultiBaseConfig cfg)
      end
  end.

(** [func (cfg *ClickHouseMultiConfig) Configs() []*ClickHouseConfig]: the
    slice is made with one slot per database and slot [i] is filled with the
    config of database [i]. *)
Fixpoint configs_loop (base : option ClickHouseBaseConfig) (i : nat)
    (dbs : list string) (configs : list (option ClickHouseConfig))
    : list (option ClickHouseConfig) :=
  match dbs with
  | [] => configs
  | db :: dbs' =>
    configs_loop base (S i) dbs'
      (<[i := Some {| BaseConfig := base; Database := db |}]> configs)
  end.

Definition Configs (cfg : ClickHouseMultiConfig) : list (option ClickHouseConfig) :=
  configs_loop (MultiBaseConfig cfg) 0 (Databases cfg)
    (replicate (length (Databases cfg)) None).

End ClickHouse.

(** The bytes a list of calls hands to [Write], in order. *)
Module Trace.
Import Http Fixtures.

Fixpoint payload (calls : list Call) : list byte :=
  match calls with
  | [] => []
  | CallWrite p :: calls' => (p ++ payload calls')%list
  | _ :: calls' => payload calls'
  end.

(** When the server's writer takes every byte of a body.  [Conn] accepts
    every write; the writers of [net/http] and [httptest] refuse a body after
    a status that allows none (1xx, 204, 304; codes outside 100-999 panic),
    and [net/http] refuses bytes beyond a [Content-Length] that was in the
    header map when the status went out.  The conditions below keep a
    handler and a connection clear of those cases. *)
Definition bodyAllowed (statusCode : Z) : bool :=
  (200 <=? statusCode)%Z && (statusCode <=? 999)%Z
  && negb (statusCode =? 204)%Z && negb (statusCode =? 304)%Z.

Definition declaresLength (key : string) : bool :=
  String.eqb (ToLower key) "content-length"
  || String.eqb (ToLower key) "transfer-encoding".

(** Every status the handler sets allows a body, and the handler sets no
    header that declares the length of the body. *)
Fixpoint keeps_body (calls : list Call) : bool :=
  match calls with
  | [] => true
  | c :: calls' =>
    match c with
    | CallWriteHeader s => bodyAllowed s
    | CallHeaderSet k _ => negb (declaresLength k)
    | _ => true
    end && keeps_body calls'
  end.

(** The handler makes a call that sends the status line: the headers are on
    their way before the middleware sets [Content-Length]. *)
Fixpoint sends_status (calls : list Call) : bool :=
  match calls with
  | [] => false
  | CallWriteHeader _ :: _ => true
  | CallWrite _ :: _ => true
  | _ :: calls' => sends_status calls'
  end.

(** A connection on which nothing was sent and no length was declared. *)
Definition untouched (c : Conn) : bool :=
  match sent c, hdr c !! "Content-Length", hdr c !! "Transfer-Encoding" with
  | None, None, None => true
  | _, _, _ => false
  end.

End Trace.

(* ===================================================================== *)
(** * Theorems *)
(* ===================================================================== *)

Section PtrFacts.
Context {T : Type}.
Variable eq : T -> T -> bool.
Variable zero : T.

Lemma From_zero (t : T) : eq t zero = true -> Ptr.From eq zero t = None.
Proof. intros Hz. unfold Ptr.From. by rewrite Hz. Qed.

Lemma From_nonzero (t : T) : eq t zero = false -> Ptr.From eq zero t = Some t.
Proof. intros Hne. unfold Ptr.From. by rewrite Hne. Qed.
End PtrFacts.

(** C10.  For a comparable type [T] with [==] and zero value [zero], and
    every [t]: [From t] is nil exactly when [t == zero]; otherwise it is a
    non-nil pointer whose pointee is [t]; and the pointee of a pointer returned
    by [From] is never [==] to the zero value. *)
Theorem C10_From_spec {T : Type} (eq : T -> T -> bool) (zero t : T) :
  (Ptr.From eq zero t = None <-> eq t zero = true) /\
  (eq t zero = false -> Ptr.From eq zero t = Some t) /\
  (forall p, Ptr.From eq zero t = Some p -> p = t /\ eq p zero = false).
Proof.
  split; [| split].
  - split.
    + unfold Ptr.From. by destruct (eq t zero).
    + apply From_zero.
  - apply From_nonzero.
  - intros p. unfold Ptr.From. destruct (eq t zero) eqn:Hz; [discriminate |].
    by intros [= <-].
Qed.

Lemma C10_From_spec_witness :
  Ptr.From Z.eqb 0%Z 7%Z = Some 7%Z /\ Ptr.From Z.eqb 0%Z 0%Z = None /\
  Ptr.From String.eqb "" "key" = Some "key" /\
  Ptr.From Ptr.float_eq Ptr.PosZero Ptr.NegZero = None /\
  Ptr.From Ptr.float_eq Ptr.PosZero Ptr.NaN = Some Ptr.NaN.
Proof.
  split; [| split; [| split; [| split]]].
  - by apply (C10_From_spec Z.eqb 0%Z 7%Z).
  - by apply (C10_From_spec Z.eqb 0%Z 0%Z).
  - by apply (C10_From_spec String.eqb "" "key").
  - by apply (C10_From_spec Ptr.float_eq Ptr.PosZero Ptr.NegZero).
  - by apply (C10_From_spec Ptr.float_eq Ptr.PosZero Ptr.NaN).
Defined.

(* ===================================================================== *)
(** ** grpc: configuration validation *)
(* ===================================================================== *)

Section ValidateFacts.
Import Grpc.

Lemma eqb_empty_false (s : string) : s <> "" -> String.eqb s "" = false.
Proof. intros Hs. by apply String.eqb_neq. Qed.

Lemma Validate_listener_host (cfg : ServerConfig) (l : Listener) :
  Listener_ cfg = Some l -> Host cfg <> "" ->
  Validate (Some cfg) = Some "listener and host cannot both be set".
Proof.
  intros Hl Hh. unfold Validate. rewrite Hl, (eqb_empty_false _ Hh). reflexivity.
Qed.

Lemma Validate_listener_port (cfg : ServerConfig) (l : Listener) :
  Listener_ cfg = Some l -> Port cfg <> 0%Z ->
  is_Some (Validate (Some cfg)).
Proof.
  intros Hl Hp. unfold Validate. rewrite Hl.
  destruct (String.eqb (Host cfg) ""); simpl; [| by eexists].
  apply Z.eqb_neq in Hp. rewrite Hp. by eexists.
Qed.

Lemma Validate_no_listener_no_host (cfg : ServerConfig) :
  Listener_ cfg = None -> Host cfg = "" ->
  Validate (Some cfg) = Some "no listener provided and host is empty".
Proof. intros Hl Hh. unfold Validate. rewrite Hl, Hh. reflexivity. Qed.

Lemma Validate_host_port_ok (cfg : ServerConfig) :
  Listener_ cfg = None -> Host cfg <> "" -> (0 <= Port cfg)%Z ->
  Validate (Some cfg) = None.
Proof.
  intros Hl Hh Hp. unfold Validate. rewrite Hl, (eqb_empty_false _ Hh).
  apply Z.ltb_ge in Hp. by rewrite Hp.
Qed.

End ValidateFacts.

(** C6.  [ServerConfig.Validate] returns an error for every config that sets
    both a listener and a non-empty host, for every config that sets a
    listener and a nonzero port, and for every config with no listener and an
    empty host; it returns nil for every config with a non-empty host, port
    zero and no listener. *)
Theorem C6_Validate_spec (cfg : Grpc.ServerConfig) :
  (forall l, Grpc.Listener_ cfg = Some l -> Grpc.Host cfg <> "" ->
     is_Some (Grpc.Validate (Some cfg))) /\
  (forall l, Grpc.Listener_ cfg = Some l -> Grpc.Port cfg <> 0%Z ->
     is_Some (Grpc.Validate (Some cfg))) /\
  (Grpc.Listener_ cfg = None -> Grpc.Host cfg = "" ->
     is_Some (Grpc.Validate (Some cfg))) /\
  (Grpc.Listener_ cfg = None -> Grpc.Host cfg <> "" -> Grpc.Port cfg = 0%Z ->
     Grpc.Validate (Some cfg) = None).
Proof.
  repeat split.
  - intros l Hl Hh. rewrite (Validate_listener_host cfg l Hl Hh). by eexists.
  - intros l Hl Hp. by apply (Validate_listener_port cfg l).
  - intros Hl Hh. rewrite (Validate_no_listener_no_host cfg Hl Hh). by eexists.
  - intros Hl Hh Hp. apply Validate_host_port_ok; [done | done | lia].
Qed.

Lemma C6_Validate_spec_witness :
  is_Some (Grpc.Validate
    (Some {| Grpc.Listener_ := Some "bufnet"; Grpc.Host := "localhost";
             Grpc.Port := 8080 |})) /\
  is_Some (Grpc.Validate
    (Some {| Grpc.Listener_ := Some "bufnet"; Grpc.Host := "";
             Grpc.Port := 8080 |})) /\
  is_Some (Grpc.Validate
    (Some {| Grpc.Listener_ := None; Grpc.Host := ""; Grpc.Port := 8080 |})) /\
  Grpc.Validate
    (Some {| Grpc.Listener_ := None; Grpc.Host := "localhost";
             Grpc.Port := 0 |}) = None.
Proof.
  split; [| split; [| split]].
  - apply (C6_Validate_spec
      {| Grpc.Listener_ := Some "bufnet"; Grpc.Host := "localhost";
         Grpc.Port := 8080 |}) with (l := "bufnet"); [reflexivity | discriminate].
  - apply (C6_Validate_spec
      {| Grpc.Listener_ := Some "bufnet"; Grpc.Host := "";
         Grpc.Port := 8080 |}) with (l := "bufnet"); [reflexivity | simpl; lia].
  - apply (C6_Validate_spec
      {| Grpc.Listener_ := None; Grpc.Host := ""; Grpc.Port := 8080 |});
      reflexivity.
  - apply (C6_Validate_spec
      {| Grpc.Listener_ := None; Grpc.Host := "localhost"; Grpc.Port := 0 |});
      [reflexivity | discriminate | reflexivity].
Defined.

(* ===================================================================== *)
(** ** http: wrapping a response writer *)
(* ===================================================================== *)

Section WrapFacts.
Import Http Fixtures.

Lemma Wrap_wrapped (rw : Writer) :
  isWrapped rw = true -> WrapResponseWriter rw = Ok rw.
Proof. by destruct rw. Qed.

Lemma Wrap_fresh (rw : Writer) :
  isWrapped rw = false -> isFlusher rw = true ->
  WrapResponseWriter rw = Ok (ResponseWriter rw StatusOK 0 "").
Proof. destruct rw; simpl; intros ? Hf; try done; by rewrite Hf. Qed.

Lemma Wrap_no_flusher (rw : Writer) :
  isFlusher rw = false ->
  WrapResponseWriter rw = Err "ResponseWriter does not implement http.Flusher".
Proof. destruct rw; simpl; intros Hf; try done; by rewrite Hf. Qed.

Lemma Wrap_Ok_inv (rw w : Writer) :
  WrapResponseWriter rw = Ok w ->
  isWrapped w = true /\
  (w = rw \/ (isWrapped rw = false /\ w = ResponseWriter rw StatusOK 0 "")).
Proof.
  destruct rw as [c | u s n usr | u g]; simpl.
  - destruct (implFlusher c); [| discriminate]. intros [= <-]. auto.
  - intros [= <-]. auto.
  - intros [= <-]. auto.
Qed.

Lemma Wrap_Ok_iff (rw : Writer) :
  (exists w, WrapResponseWriter rw = Ok w) <-> isFlusher rw = true.
Proof.
  destruct rw as [c | u s n usr | u g]; simpl; try (split; eauto; done).
  destruct (implFlusher c); split; eauto; try done. by intros [w ?].
Qed.

End WrapFacts.

(** C9.  [WrapResponseWriter] is idempotent.  Applied to a writer that is
    already a [*ResponseWriter] it returns that very writer, with its status,
    byte count and user as they are.  Applied to any other writer it succeeds
    exactly when the writer is an [http.Flusher]; it then returns a new
    wrapper around the writer with status 200, zero bytes written and no
    user; otherwise it returns an error.  Wrapping the result of a wrap again
    returns it unchanged. *)
Theorem C9_WrapResponseWriter_idempotent (rw : Http.Writer) :
  (forall u s n usr, rw = Http.ResponseWriter u s n usr ->
     Http.WrapResponseWriter rw = Http.Ok (Http.ResponseWriter u s n usr)) /\
  (Fixtures.isWrapped rw = false ->
     if Http.isFlusher rw
     then Http.WrapResponseWriter rw
          = Http.Ok (Http.ResponseWriter rw Http.StatusOK 0 "")
     else exists msg, Http.WrapResponseWriter rw = Http.Err msg) /\
  (forall w, Http.WrapResponseWriter rw = Http.Ok w ->
     Http.WrapResponseWriter w = Http.Ok w).
Proof.
  split; [| split].
  - intros u s n usr ->. reflexivity.
  - intros Hw. destruct (Http.isFlusher rw) eqn:Hf.
    + by apply Wrap_fresh.
    + eexists. by apply Wrap_no_flusher.
  - intros w Hok. apply Wrap_Ok_inv in Hok as [Hw _]. by apply Wrap_wrapped.
Qed.

Lemma C9_WrapResponseWriter_idempotent_witness :
  Http.WrapResponseWriter (Http.ResponseWriter (Fixtures.conn true) 404 12 "alice")
    = Http.Ok (Http.ResponseWriter (Fixtures.conn true) 404 12 "alice") /\
  Http.WrapResponseWriter (Fixtures.conn true)
    = Http.Ok (Http.ResponseWriter (Fixtures.conn true) 200 0 "") /\
  (exists msg, Http.WrapResponseWriter (Fixtures.conn false) = Http.Err msg) /\
  Http.WrapResponseWriter (Http.ResponseWriter (Fixtures.conn true) 200 0 "")
    = Http.Ok (Http.ResponseWriter (Fixtures.conn true) 200 0 "").
Proof.
  split; [| split; [| split]].
  - by apply (C9_WrapResponseWriter_idempotent
                (Http.ResponseWriter (Fixtures.conn true) 404 12 "alice")).
  - by apply (C9_WrapResponseWriter_idempotent (Fixtures.conn true)).
  - by apply (C9_WrapResponseWriter_idempotent (Fixtures.conn false)).
  - apply (C9_WrapResponseWriter_idempotent (Fixtures.conn true)). reflexivity.
Defined.

(* ===================================================================== *)
(** ** http: the middleware chain *)
(* ===================================================================== *)

Section ChainFacts.
Import Http Fixtures.

Lemma chain_loop_take (mws : list Middleware) (n : nat) (next : Handler) :
  (n <= length mws)%nat ->
  chain_loop mws n next = nest (take n mws) next.
Proof.
  revert next. induction n as [| i IH]; intros next Hn; cbn [chain_loop].
  - reflexivity.
  - destruct (lookup_lt_is_Some_2 mws i) as [mw Hmw]; [lia |].
    rewrite Hmw, IH by lia.
    rewrite (take_S_r _ _ _ Hmw). unfold nest.
    by rewrite fold_right_app.
Qed.

Lemma MiddlewareChain_nest (mws : list Middleware) (h : Handler) :
  MiddlewareChain mws h = nest mws h.
Proof.
  unfold MiddlewareChain. rewrite chain_loop_take by lia.
  by rewrite firstn_all.
Qed.

Lemma nest_tracers (names : list string) (h : Handler) rw r logs :
  nest (List.map tracer names) h rw r logs =
  (fst (h rw r (logs ++ List.map (fun n => mark ("in:" ++ n)) names)%list),
   (snd (h rw r (logs ++ List.map (fun n => mark ("in:" ++ n)) names)%list)
    ++ List.map (fun n => mark ("out:" ++ n)) (rev names))%list).
Proof.
  revert logs. induction names as [| a names IH]; intros logs; simpl.
  - rewrite !app_nil_r. by destruct (h rw r logs).
  - unfold tracer at 1. fold (nest (List.map tracer names) h).
    rewrite IH. simpl. rewrite <- !app_assoc. simpl.
    by rewrite List.map_app.
Qed.

End ChainFacts.

(** C3.  For every list of middlewares [m1, ..., mn] and every handler [h],
    [MiddlewareChain(m1, ..., mn)(h)] is the nesting [m1(m2(...(mn(h))))]; for
    the empty list it is [h].  With middlewares that log when a request
    enters and when the response leaves, the entries on the way in are in
    declaration order and those on the way out in reverse order. *)
Theorem C3_MiddlewareChain_nesting (mws : list Http.Middleware) (h : Http.Handler) :
  Http.MiddlewareChain mws h = fold_right (fun mw next => mw next) h mws /\
  Http.MiddlewareChain [] h = h /\
  (forall (m1 m2 m3 : Http.Middleware),
     Http.MiddlewareChain [m1; m2; m3] h = m1 (m2 (m3 h))) /\
  (forall names rw r logs,
     Http.MiddlewareChain (List.map Fixtures.tracer names) h rw r logs =
     (fst (h rw r (logs ++ List.map (fun n => Fixtures.mark ("in:" ++ n)) names)%list),
      (snd (h rw r (logs ++ List.map (fun n => Fixtures.mark ("in:" ++ n)) names)%list)
       ++ List.map (fun n => Fixtures.mark ("out:" ++ n)) (rev names))%list)).
Proof.
  split; [| split; [| split]].
  - apply MiddlewareChain_nest.
  - reflexivity.
  - intros. by rewrite MiddlewareChain_nest.
  - intros. rewrite MiddlewareChain_nest. apply nest_tracers.
Qed.

(* ===================================================================== *)
(** ** http: what a [*ResponseWriter] records *)
(* ===================================================================== *)

Section IntFacts.
Import Http.

Lemma int_wrap_small (z : Z) :
  (- 2 ^ 63 <= z < 2 ^ 63)%Z -> int_wrap z = z.
Proof. intros Hz. unfold int_wrap. rewrite Z.mod_small; lia. Qed.

Lemma int_wrap_range (z : Z) : (- 2 ^ 63 <= int_wrap z < 2 ^ 63)%Z.
Proof.
  unfold int_wrap.
  pose proof (Z.mod_pos_bound (z + 2 ^ 63) (2 ^ 64)). lia.
Qed.

Lemma int_wrap_add_l (a b : Z) : int_wrap (int_wrap a + b) = int_wrap (a + b).
Proof.
  unfold int_wrap. f_equal.
  replace ((a + 2 ^ 63) mod 2 ^ 64 - 2 ^ 63 + b + 2 ^ 63)%Z
    with ((a + 2 ^ 63) mod 2 ^ 64 + b)%Z by lia.
  rewrite Zplus_mod_idemp_l. f_equal. lia.
Qed.

End IntFacts.

Section RecordingFacts.
Import Http Fixtures.

Lemma Write_count_nonneg (w : Writer) (p : list byte) : (0 <= snd (Write w p))%Z.
Proof.
  induction w as [c | u IH s n usr | u IH g]; simpl.
  - lia.
  - destruct (Write u p) as [u' k]. exact IH.
  - destruct (closed g); simpl; lia.
Qed.

Lemma counts_nonneg (calls : list Call) (w : Writer) : (0 <= counts calls w)%Z.
Proof.
  revert w. induction calls as [| c calls IH]; intros w; simpl; [lia |].
  specialize (IH (do_call w c)).
  destruct c; try lia. pose proof (Write_count_nonneg w p). lia.
Qed.

Lemma last_cons_default {A : Type} (x d : A) (l : list A) :
  List.last (x :: l) d = List.last l x.
Proof.
  revert x d. induction l as [| y l IH]; intros x d; [reflexivity |].
  change (List.last (x :: y :: l) d) with (List.last (y :: l) d).
  rewrite IH. symmetry. apply IH.
Qed.

Lemma run_cons (c : Call) (calls : list Call) (w : Writer) :
  run (c :: calls) w = run calls (do_call w c).
Proof. reflexivity. Qed.

(** A run of calls on a [*ResponseWriter] leaves a [*ResponseWriter] with the
    same user; its status is the last status code passed to [WriteHeader] and
    its byte count the wrapped sum of the counts returned to it. *)
Lemma run_ResponseWriter (calls : list Call) :
  forall (u : Writer) (s n : Z) (usr : string),
    (- 2 ^ 63 <= n < 2 ^ 63)%Z ->
    exists u',
      run calls (ResponseWriter u s n usr) =
      ResponseWriter u' (List.last (codes calls) s)
        (int_wrap (n + counts calls (ResponseWriter u s n usr))) usr.
Proof.
  induction calls as [| c calls IH]; intros u s n usr Hn.
  - exists u. simpl. by rewrite Z.add_0_r, int_wrap_small.
  - rewrite run_cons. cbn [counts].
    destruct c as [x | p | | k v]; cbn [do_call].
    + cbn [WriteHeader]. destruct (IH (WriteHeader u x) x n usr Hn) as [u' ->].
      exists u'. change (codes (CallWriteHeader x :: calls)) with (x :: codes calls).
      by rewrite last_cons_default, Z.add_0_l.
    + cbn [Write]. destruct (Write u p) as [u1 k] eqn:Hw. cbn [fst snd].
      destruct (IH u1 s (int_add n k) usr (int_wrap_range _)) as [u' ->].
      exists u'. change (codes (CallWrite p :: calls)) with (codes calls).
      unfold int_add. by rewrite int_wrap_add_l, Z.add_assoc.
    + cbn [Flush]. destruct (IH (Flush u) s n usr Hn) as [u' ->].
      exists u'. change (codes (CallFlush :: calls)) with (codes calls).
      by rewrite Z.add_0_l.
    + cbn [Header_update].
      destruct (IH (Header_update (Set_ k v) u) s n usr Hn) as [u' ->].
      exists u'. change (codes (CallHeaderSet k v :: calls)) with (codes calls).
      by rewrite Z.add_0_l.
Qed.

End RecordingFacts.

(** C1, as the code has it.  Let [w] be the writer [WrapResponseWriter]
    returns (its byte count is an [int]).  After any sequence of calls on
    [w], the status recorded in [w] is the status code of the last
    [WriteHeader] call, and the status [w] had when no [WriteHeader] call was
    made (200 for a wrapper made by this call); the byte count is the count it
    had plus the counts returned by the [Write] calls, added as [int]s. *)
Theorem C1_status_last_bytes_accumulate
    (rw w : Http.Writer) (calls : list Fixtures.Call) :
  Http.WrapResponseWriter rw = Http.Ok w ->
  (- 2 ^ 63 <= Http.written w < 2 ^ 63)%Z ->
  Http.status (Fixtures.run calls w)
    = List.last (Fixtures.codes calls) (Http.status w) /\
  Http.written (Fixtures.run calls w)
    = Http.int_wrap (Http.written w + Fixtures.counts calls w) /\
  (0 <= Fixtures.counts calls w)%Z /\
  (Fixtures.isWrapped rw = false ->
     Http.status w = 200%Z /\ Http.written w = 0%Z /\
     ((Fixtures.counts calls w < 2 ^ 63)%Z ->
        Http.written (Fixtures.run calls w) = Fixtures.counts calls w)).
Proof.
  intros Hok Hn.
  destruct (Wrap_Ok_inv rw w Hok) as [Hw Hcases].
  destruct w as [c | u s n usr | u g]; try discriminate.
  destruct (run_ResponseWriter calls u s n usr Hn) as [u' Hrun].
  pose proof (counts_nonneg calls (Http.ResponseWriter u s n usr)) as Hc.
  rewrite Hrun. simpl. split; [done |]. split; [done |]. split; [done |].
  intros Hfresh. destruct Hcases as [<- | [_ [= _ -> ->]]]; [discriminate |].
  split; [done |]. split; [done |].
  intros Hlt. rewrite Z.add_0_l. apply int_wrap_small. lia.
Qed.

Lemma C1_status_last_bytes_accumulate_witness :
  Http.status
    (Fixtures.run [Fixtures.CallWrite [x68; x69]; Fixtures.CallWriteHeader 201;
                   Fixtures.CallWrite [x21]]
       (Http.ResponseWriter (Fixtures.conn true) 200 0 "")) = 201%Z /\
  Http.written
    (Fixtures.run [Fixtures.CallWrite [x68; x69]; Fixtures.CallWriteHeader 201;
                   Fixtures.CallWrite [x21]]
       (Http.ResponseWriter (Fixtures.conn true) 200 0 "")) = 3%Z.
Proof.
  assert (Hok : Http.WrapResponseWriter (Fixtures.conn true)
                = Http.Ok (Http.ResponseWriter (Fixtures.conn true) 200 0 ""))
    by reflexivity.
  assert (Hn : (- 2 ^ 63
                <= Http.written (Http.ResponseWriter (Fixtures.conn true) 200 0 "")
                < 2 ^ 63)%Z) by (simpl; lia).
  destruct (C1_status_last_bytes_accumulate (Fixtures.conn true)
              (Http.ResponseWriter (Fixtures.conn true) 200 0 "")
              [Fixtures.CallWrite [x68; x69]; Fixtures.CallWriteHeader 201;
               Fixtures.CallWrite [x21]] Hok Hn)
    as (Hs & Hb & _ & _).
  split; [exact Hs | exact Hb].
Defined.

(** C1 as stated fails: on a new wrapper, [WriteHeader(404)] followed by
    [WriteHeader(500)] leaves 500 recorded, not the first code 404 (which is
    the one the connection below sent). *)
Lemma C1_first_status_counterexample :
  exists w,
    Http.WrapResponseWriter (Fixtures.conn true) = Http.Ok w /\
    Fixtures.codes [Fixtures.CallWriteHeader 404; Fixtures.CallWriteHeader 500]
      = [404%Z; 500%Z] /\
    Http.status
      (Fixtures.run [Fixtures.CallWriteHeader 404; Fixtures.CallWriteHeader 500] w)
      = 500%Z /\
    Http.status
      (Fixtures.run [Fixtures.CallWriteHeader 404; Fixtures.CallWriteHeader 500] w)
      <> 404%Z.
Proof.
  eexists. split; [reflexivity |]. split; [reflexivity |].
  split; [reflexivity | discriminate].
Qed.

(* ===================================================================== *)
(** ** http: access logging *)
(* ===================================================================== *)

Section LoggingFacts.
Import Http Fixtures.

Lemma Logging_unwrappable (next : Handler) rw req logs msg :
  WrapResponseWriter rw = Err msg ->
  MiddlewareLogging next rw req logs
  = (http_Error rw msg StatusInternalServerError, logs).
Proof. intros Hw. unfold MiddlewareLogging. by rewrite Hw. Qed.

Lemma Logging_wrapped (next : Handler) rw req logs wrapped :
  WrapResponseWriter rw = Ok wrapped ->
  exists e,
    MiddlewareLogging next rw req logs
    = (released rw (fst (next wrapped req logs)),
       (snd (next wrapped req logs) ++ [e])%list) /\
    message e = "Served" /\
    In ("status", AInt (status (fst (next wrapped req logs)))) (attrs e) /\
    In ("size", AInt (written (fst (next wrapped req logs)))) (attrs e) /\
    In ("user", AString (user (fst (next wrapped req logs)))) (attrs e) /\
    level e =
      (if (400 <=? status (fst (next wrapped req logs)))%Z
          && (status (fst (next wrapped req logs)) <? 500)%Z then LevelWarn
       else if (500 <=? status (fst (next wrapped req logs)))%Z then LevelError
       else LevelInfo).
Proof.
  intros Hw. unfold MiddlewareLogging. rewrite Hw.
  destruct (next wrapped req logs) as [w' logs']. cbn [fst snd].
  eexists. split; [reflexivity |]. cbn [message attrs level].
  split; [reflexivity |].
  repeat split; apply in_or_app; right; simpl; tauto.
Qed.

End LoggingFacts.

(** C4, as the code has it.  When the response writer can be wrapped (it is
    already a [*ResponseWriter], or it is an [http.Flusher]), the
    access-logging middleware hands exactly one record to the logger after the
    inner handler returns, and the level of the record is a function of the
    status recorded in the wrapper: info below 400 (so for 200-299 and
    300-399), warn for 400-499, error from 500 on.  When the writer cannot be
    wrapped, the middleware answers 500 and logs nothing. *)
Theorem C4_access_log_one_entry_by_status
    (next : Http.Handler) (rw : Http.Writer) (req : Http.Request)
    (logs : list Http.LogRecord) :
  (forall wrapped, Http.WrapResponseWriter rw = Http.Ok wrapped ->
     exists e,
       snd (Http.MiddlewareLogging next rw req logs)
       = (snd (next wrapped req logs) ++ [e])%list /\
       In ("status", Http.AInt (Http.status (fst (next wrapped req logs))))
          (Http.attrs e) /\
       ((Http.status (fst (next wrapped req logs)) < 400)%Z ->
          Http.level e = Http.LevelInfo) /\
       ((400 <= Http.status (fst (next wrapped req logs)) < 500)%Z ->
          Http.level e = Http.LevelWarn) /\
       ((500 <= Http.status (fst (next wrapped req logs)))%Z ->
          Http.level e = Http.LevelError)) /\
  (forall msg, Http.WrapResponseWriter rw = Http.Err msg ->
     Http.MiddlewareLogging next rw req logs
     = (Http.http_Error rw msg 500, logs)).
Proof.
  split.
  - intros wrapped Hw.
    destruct (Logging_wrapped next rw req logs wrapped Hw)
      as (e & Heq & _ & Hst & _ & _ & Hlvl).
    exists e. rewrite Heq. split; [reflexivity |]. split; [exact Hst |].
    rewrite Hlvl.
    repeat split; intros Hrange;
      destruct (Z.leb_spec 400 (Http.status (fst (next wrapped req logs))));
      destruct (Z.ltb_spec (Http.status (fst (next wrapped req logs))) 500);
      destruct (Z.leb_spec 500 (Http.status (fst (next wrapped req logs))));
      simpl; try reflexivity; lia.
  - intros msg Hw. by apply Logging_unwrappable.
Qed.

Lemma C4_access_log_one_entry_by_status_witness :
  exists e,
    snd (Http.MiddlewareLogging
           (Fixtures.script [Fixtures.CallWriteHeader 404])
           (Fixtures.conn true) (Fixtures.request []) [])
    = [e] /\ Http.level e = Http.LevelWarn.
Proof.
  destruct (C4_access_log_one_entry_by_status
              (Fixtures.script [Fixtures.CallWriteHeader 404])
              (Fixtures.conn true) (Fixtures.request []) []) as [Hone _].
  destruct (Hone (Http.ResponseWriter (Fixtures.conn true) 200 0 "") eq_refl)
    as (e & Hlog & _ & _ & Hwarn & _).
  exists e. split; [exact Hlog |]. apply Hwarn. simpl. lia.
Defined.

(** C4 as stated fails: with a writer that is not an [http.Flusher] the
    middleware returns before the inner handler and before the log call, so
    the request leaves no log entry. *)
Lemma C4_no_entry_counterexample :
  Http.MiddlewareLogging (Fixtures.probe "inner")
    (Fixtures.conn false) (Fixtures.request []) []
  = (Http.http_Error (Fixtures.conn false)
       "ResponseWriter does not implement http.Flusher" 500,
     []).
Proof. reflexivity. Qed.

(* ===================================================================== *)
(** ** http: API key authentication *)
(* ===================================================================== *)

Section AuthFacts.
Import Http Fixtures.
Variable json_text : Json -> list byte.
Variable Quote : string -> string.

Lemma authenticate_no_key lookup (next : Handler) rw req logs :
  Get (ReqHeader req) ApiKeyHeader = "" ->
  authenticate json_text Quote lookup next rw req logs
  = (EncodeErr json_text rw StatusUnauthorized "please set the X-API-Key header",
     logs).
Proof. intros Hk. unfold authenticate. by rewrite Hk. Qed.

Lemma authenticate_unknown_key lookup (next : Handler) rw req logs :
  Get (ReqHeader req) ApiKeyHeader <> "" ->
  lookup !! Get (ReqHeader req) ApiKeyHeader = None ->
  authenticate json_text Quote lookup next rw req logs
  = (EncodeErr json_text rw StatusUnauthorized
       ("unrecognized API key " ++ Quote (Get (ReqHeader req) ApiKeyHeader)),
     logs).
Proof.
  intros Hk Hl. unfold authenticate.
  by rewrite (eqb_empty_false _ Hk), Hl.
Qed.

Lemma authenticate_known_key lookup (next : Handler) rw req logs usr wrapped :
  Get (ReqHeader req) ApiKeyHeader <> "" ->
  lookup !! Get (ReqHeader req) ApiKeyHeader = Some usr ->
  WrapResponseWriter rw = Ok wrapped ->
  authenticate json_text Quote lookup next rw req logs
  = (released rw (fst (next (set_user wrapped usr) req logs)),
     snd (next (set_user wrapped usr) req logs)).
Proof.
  intros Hk Hl Hw. unfold authenticate.
  rewrite (eqb_empty_false _ Hk), Hl, Hw.
  by destruct (next (set_user wrapped usr) req logs).
Qed.

Lemma authenticate_unwrappable lookup (next : Handler) rw req logs usr msg :
  Get (ReqHeader req) ApiKeyHeader <> "" ->
  lookup !! Get (ReqHeader req) ApiKeyHeader = Some usr ->
  WrapResponseWriter rw = Err msg ->
  authenticate json_text Quote lookup next rw req logs
  = (http_Error rw msg StatusInternalServerError, logs).
Proof.
  intros Hk Hl Hw. unfold authenticate.
  by rewrite (eqb_empty_false _ Hk), Hl, Hw.
Qed.

Lemma set_user_wrapped rw wrapped usr :
  WrapResponseWriter rw = Ok wrapped -> user (set_user wrapped usr) = usr.
Proof.
  intros Hw. apply Wrap_Ok_inv in Hw as [Hw _]. by destruct wrapped.
Qed.

(** What [EncodeErr] leaves on a connection: the status (unless one went out
    before), the JSON content type, and one line holding an envelope whose
    only field is the error with its message. *)
Lemma EncodeErr_conn (c : Conn) (st : Z) (errMsg : string) :
  EncodeErr json_text (ConnWriter c) st errMsg
  = ConnWriter
      {| implFlusher := implFlusher c;
         hdr := Set_ "Content-Type" "application/json" (hdr c);
         sent := Some (default st (sent c));
         body := (body c ++
                  json_text (JObject [("error",
                               JObject [("message", JString errMsg)])])
                  ++ [x0a])%list;
         flushes := flushes c |}.
Proof.
  unfold EncodeErr, Encode. simpl. unfold conn_Write, conn_WriteHeader. simpl.
  by destruct (sent c).
Qed.

(** On a [*ResponseWriter] the status of the rejection is the one recorded. *)
Lemma EncodeErr_status (u : Writer) (s n : Z) (usr : string) (st : Z)
    (errMsg : string) :
  status (EncodeErr json_text (ResponseWriter u s n usr) st errMsg) = st.
Proof.
  unfold EncodeErr, Encode. cbn [Header_update WriteHeader Write].
  by destruct (Write _ _).
Qed.

End AuthFacts.

(** C5, as the code has it.  A request whose [X-API-Key] header is absent or
    empty is answered by [EncodeErr] with 401 and a message naming the header;
    a request with a non-empty key that is not in the table is answered with
    401 and a message quoting the key; in both cases the inner handler is not
    invoked.  With a key in the table, the inner handler runs, on the wrapped
    writer whose user field holds the identity of the key, when the response
    writer can be wrapped; when it cannot, the answer is 500 and the inner
    handler is not invoked. *)
Theorem C5_authentication_outcomes
    (json_text : Http.Json -> list byte) (Quote : string -> string)
    (lookup : gmap string string) (next : Http.Handler)
    (rw : Http.Writer) (req : Http.Request) (logs : list Http.LogRecord) :
  (Http.Get (Http.ReqHeader req) "X-API-Key" = "" ->
     Http.authenticate json_text Quote lookup next rw req logs
     = (Http.EncodeErr json_text rw 401 "please set the X-API-Key header",
        logs)) /\
  (Http.Get (Http.ReqHeader req) "X-API-Key" <> "" ->
   lookup !! Http.Get (Http.ReqHeader req) "X-API-Key" = None ->
     Http.authenticate json_text Quote lookup next rw req logs
     = (Http.EncodeErr json_text rw 401
          ("unrecognized API key "
           ++ Quote (Http.Get (Http.ReqHeader req) "X-API-Key")),
        logs)) /\
  (forall usr wrapped,
     Http.Get (Http.ReqHeader req) "X-API-Key" <> "" ->
     lookup !! Http.Get (Http.ReqHeader req) "X-API-Key" = Some usr ->
     Http.WrapResponseWriter rw = Http.Ok wrapped ->
     Http.user (Http.set_user wrapped usr) = usr /\
     Http.authenticate json_text Quote lookup next rw req logs
     = (Http.released rw (fst (next (Http.set_user wrapped usr) req logs)),
        snd (next (Http.set_user wrapped usr) req logs))) /\
  (forall usr msg,
     Http.Get (Http.ReqHeader req) "X-API-Key" <> "" ->
     lookup !! Http.Get (Http.ReqHeader req) "X-API-Key" = Some usr ->
     Http.WrapResponseWriter rw = Http.Err msg ->
     Http.authenticate json_text Quote lookup next rw req logs
     = (Http.http_Error rw msg 500, logs)).
Proof.
  split; [| split; [| split]].
  - apply authenticate_no_key.
  - apply authenticate_unknown_key.
  - intros usr wrapped Hk Hl Hw. split.
    + by apply (set_user_wrapped rw).
    + by apply authenticate_known_key.
  - intros usr msg. apply authenticate_unwrappable.
Qed.

Lemma C5_authentication_outcomes_witness :
  (* no header *)
  Http.authenticate Fixtures.no_text Fixtures.quote {["secret" := "alice"]}
    (Fixtures.probe "inner") (Fixtures.conn true) (Fixtures.request []) []
  = (Http.EncodeErr Fixtures.no_text (Fixtures.conn true) 401
       "please set the X-API-Key header", []) /\
  (* a key that is not in the table *)
  Http.authenticate Fixtures.no_text Fixtures.quote {["secret" := "alice"]}
    (Fixtures.probe "inner") (Fixtures.conn true)
    (Fixtures.request [("X-API-Key", "guess")]) []
  = (Http.EncodeErr Fixtures.no_text (Fixtures.conn true) 401
       ("unrecognized API key " ++ Fixtures.quote "guess"), []) /\
  (* a key that is in the table *)
  Http.authenticate Fixtures.no_text Fixtures.quote {["secret" := "alice"]}
    (Fixtures.probe "inner") (Fixtures.conn true)
    (Fixtures.request [("X-API-Key", "secret")]) []
  = (Fixtures.conn true, [Fixtures.mark "inner"]).
Proof.
  split; [| split].
  - pose proof (C5_authentication_outcomes Fixtures.no_text Fixtures.quote
             {["secret" := "alice"]} (Fixtures.probe "inner")
             (Fixtures.conn true) (Fixtures.request []) []) as (H & _).
    apply H. reflexivity.
  - assert (Hget : Http.Get
              (Http.ReqHeader (Fixtures.request [("X-API-Key", "guess")]))
              "X-API-Key" = "guess") by reflexivity.
    pose proof (C5_authentication_outcomes Fixtures.no_text Fixtures.quote
             {["secret" := "alice"]} (Fixtures.probe "inner")
             (Fixtures.conn true)
             (Fixtures.request [("X-API-Key", "guess")]) []) as (_ & H & _).
    rewrite Hget in H. apply H; [discriminate | reflexivity].
  - assert (Hget : Http.Get
              (Http.ReqHeader (Fixtures.request [("X-API-Key", "secret")]))
              "X-API-Key" = "secret") by reflexivity.
    pose proof (C5_authentication_outcomes Fixtures.no_text Fixtures.quote
             {["secret" := "alice"]} (Fixtures.probe "inner")
             (Fixtures.conn true)
             (Fixtures.request [("X-API-Key", "secret")]) []) as (_ & _ & H & _).
    rewrite Hget in H.
    destruct (H "alice" (Http.ResponseWriter (Fixtures.conn true) 200 0 ""))
      as [_ ->]; [discriminate | reflexivity | reflexivity | reflexivity].
Defined.

(** C5 as stated fails: the key is in the table, but the writer is not an
    [http.Flusher]; the inner handler is not invoked (it would have logged)
    and the answer is 500. *)
Lemma C5_known_key_counterexample :
  exists mw,
    Http.MiddlewareAuthentication Fixtures.no_text Fixtures.quote
      ["secret"] ["alice"] = Some mw /\
    Http.Get (Http.ReqHeader (Fixtures.request [("X-API-Key", "secret")]))
      "X-API-Key" = "secret" /\
    mw (Fixtures.probe "inner") (Fixtures.conn false)
       (Fixtures.request [("X-API-Key", "secret")]) []
    = (Http.http_Error (Fixtures.conn false)
         "ResponseWriter does not implement http.Flusher" 500, []).
Proof.
  eexists. split; [reflexivity |]. split; reflexivity.
Qed.

(** The header check compares the value with the empty string: a header that
    is present but empty is answered like an absent one, whatever the table
    holds for the empty key. *)
Example C5_empty_key_is_no_key :
  Http.authenticate Fixtures.no_text Fixtures.quote {["" := "ghost"]}
    (Fixtures.probe "inner") (Fixtures.conn true)
    (Fixtures.request [("X-API-Key", "")]) []
  = (Http.EncodeErr Fixtures.no_text (Fixtures.conn true) 401
       "please set the X-API-Key header", []).
Proof. reflexivity. Qed.

(* ===================================================================== *)
(** ** http: the API key table *)
(* ===================================================================== *)

Section LookupFacts.
Import Http.

(** The loop from index [i] on, for a [users] slice long enough to be
    indexed by every remaining key. *)
Lemma build_lookup_from (users : list string) :
  forall (keys : list string) (i : nat) (m : gmap string string),
    (i + length keys <= length users)%nat ->
    exists tbl,
      build_lookup i keys users m = Some tbl /\
      (forall j key u,
         keys !! j = Some key -> users !! (i + j)%nat = Some u ->
         (forall j', (j < j')%nat -> keys !! j' <> Some key) ->
         tbl !! key = Some u) /\
      (forall key, key ∉ keys -> tbl !! key = m !! key).
Proof.
  induction keys as [| k keys IH]; intros i m Hlen.
  - exists m. split; [reflexivity |]. split; [| done].
    intros j key u Hj. by rewrite lookup_nil in Hj.
  - simpl in Hlen. cbn [build_lookup].
    destruct (lookup_lt_is_Some_2 users i) as [u0 Hu0]; [lia |].
    rewrite Hu0.
    destruct (IH (S i) (<[k := u0]> m)) as (tbl & Hb & Hlast & Hrest); [lia |].
    exists tbl. split; [exact Hb |]. split.
    + intros [| j] key u Hj Hu Hlater.
      * simpl in Hj. injection Hj as ->.
        rewrite Nat.add_0_r, Hu0 in Hu. injection Hu as ->.
        rewrite Hrest; [by rewrite lookup_insert_eq |].
        intros Hin. apply list_elem_of_lookup in Hin as [j' Hj'].
        by apply (Hlater (S j')); [lia |].
      * simpl in Hj. apply (Hlast j key u Hj).
        -- rewrite <- Hu. f_equal. lia.
        -- intros j' Hlt. apply (Hlater (S j')). lia.
    + intros key Hnin. apply not_elem_of_cons in Hnin as [Hne Hnin].
      rewrite (Hrest key Hnin). by rewrite lookup_insert_ne.
Qed.

(** With fewer users than keys the loop indexes past the end of [users]. *)
Lemma build_lookup_short (users : list string) :
  forall (keys : list string) (i : nat) (m : gmap string string),
    (i <= length users < i + length keys)%nat ->
    build_lookup i keys users m = None.
Proof.
  induction keys as [| k keys IH]; intros i m Hlen; simpl in *; [lia |].
  destruct (users !! i) as [u |] eqn:Hu; [| reflexivity].
  apply lookup_lt_Some in Hu. apply IH. lia.
Qed.

End LookupFacts.

(** C7.  Given lists of keys and identities of equal length,
    [MiddlewareAuthentication] builds the lookup table once, before it
    returns the middleware: the table maps each key to the identity at the
    greatest index at which the key occurs (the last write wins), and holds
    no other key.  The middleware is the request handler closed over that one
    table, which the handler only reads: every request is answered from the
    same table. *)
Theorem C7_lookup_last_write_wins
    (json_text : Http.Json -> list byte) (Quote : string -> string)
    (keys users : list string) :
  length keys = length users ->
  exists lookup : gmap string string,
    Http.build_lookup 0 keys users ∅ = Some lookup /\
    Http.MiddlewareAuthentication json_text Quote keys users
      = Some (Http.authenticate json_text Quote lookup) /\
    (forall i key u,
       keys !! i = Some key -> users !! i = Some u ->
       (forall j, (i < j)%nat -> keys !! j <> Some key) ->
       lookup !! key = Some u) /\
    (forall key, key ∉ keys -> lookup !! key = None).
Proof.
  intros Hlen.
  destruct (build_lookup_from users keys 0 ∅) as (tbl & Hb & Hlast & Hrest);
    [lia |].
  exists tbl. split; [exact Hb |]. split.
  - unfold Http.MiddlewareAuthentication. by rewrite Hb.
  - split.
    + intros i key u Hk Hu Hlater. by apply (Hlast i key u).
    + intros key Hnin. by rewrite (Hrest key Hnin), lookup_empty.
Qed.

Lemma C7_lookup_last_write_wins_witness :
  exists lookup : gmap string string,
    Http.build_lookup 0 ["k1"; "k2"; "k1"] ["ann"; "bob"; "cyd"] ∅ = Some lookup /\
    lookup !! "k1" = Some "cyd" /\ lookup !! "k2" = Some "bob" /\
    lookup !! "k3" = None.
Proof.
  destruct (C7_lookup_last_write_wins Fixtures.no_text Fixtures.quote
              ["k1"; "k2"; "k1"] ["ann"; "bob"; "cyd"] eq_refl)
    as (lookup & Hb & _ & Hlast & Hrest).
  exists lookup. split; [exact Hb |]. split; [| split].
  - apply (Hlast 2%nat "k1" "cyd"); [reflexivity | reflexivity |].
    intros [| [| [| j]]] Hlt; try lia; discriminate.
  - apply (Hlast 1%nat "k2" "bob"); [reflexivity | reflexivity |].
    intros [| [| [| j]]] Hlt; try lia; discriminate.
  - apply Hrest. intros Hin. repeat (apply elem_of_cons in Hin as [Hin | Hin];
      [discriminate |]). by apply elem_of_nil in Hin.
Defined.

(* ===================================================================== *)
(** ** http: the JSON envelope *)
(* ===================================================================== *)

(** Goals about membership in a literal list of fields. *)
Ltac fields :=
  simpl; intros;
  repeat match goal with
         | H : _ \/ _ |- _ => destruct H
         | H : False |- _ => destruct H
         | H : (_, _) = (_, _) |- _ => inversion H; clear H; subst
         end;
  try discriminate; try congruence; eauto 6.

Section EnvelopeFacts.
Import Http.

Lemma Response_json_fields (resp : Response) :
  Response_json resp =
  JObject ((if isEmptyValue (Data resp) then []
            else [("data", plain_json (Data resp))]) ++
           match Error resp with
           | None => []
           | Some e => [("error", JObject [("message", JString (Message e))])]
           end)%list.
Proof. reflexivity. Qed.

Lemma Encode_conn (json_text : Json -> list byte) (c : Conn) (st : Z) (v : Value) :
  Encode json_text (ConnWriter c) st v
  = ConnWriter
      {| implFlusher := implFlusher c;
         hdr := Set_ "Content-Type" "application/json" (hdr c);
         sent := Some (default st (sent c));
         body := (body c ++ json_text (Response_json (envelope v)) ++ [x0a])%list;
         flushes := flushes c |}.
Proof.
  unfold Encode. simpl. unfold conn_Write, conn_WriteHeader. simpl.
  by destruct (sent c).
Qed.

End EnvelopeFacts.

(** C8, as the code has it.  [Encode] routes its value: a [*ErrResponse] goes
    to the envelope's error field, any other error value goes there as an
    error object with that error's message, every other value goes to the
    data field.  The envelope has the two fields data and error, both tagged
    [omitempty]: the encoded document holds no other field, holds the error
    field exactly when the envelope's error is not nil, and the data field
    exactly when the data is not empty; an encoded error object has the
    message field and nothing else.  The document is what [Encode] writes,
    followed by a newline. *)
Theorem C8_Encode_routes_errors_and_data
    (json_text : Http.Json -> list byte) (v : Http.Value) :
  (forall p, v = Http.ErrResponsePtr p -> Http.Error (Http.envelope v) = p) /\
  (forall msg zero, v = Http.ErrorValue msg zero ->
     Http.Error (Http.envelope v) = Some {| Http.Message := msg |}) /\
  (forall d, v = Http.PlainValue d ->
     Http.Data (Http.envelope v) = d /\ Http.Error (Http.envelope v) = None) /\
  (exists fields,
     Http.Response_json (Http.envelope v) = Http.JObject fields /\
     (forall k j, In (k, j) fields -> k = "data" \/ k = "error") /\
     (In "error" (List.map fst fields) <-> Http.Error (Http.envelope v) <> None) /\
     (In "data" (List.map fst fields)
        <-> Http.isEmptyValue (Http.Data (Http.envelope v)) = false) /\
     (forall j, In ("error", j) fields ->
        exists m, j = Http.JObject [("message", Http.JString m)] /\
                  Http.Error (Http.envelope v) = Some {| Http.Message := m |})) /\
  (forall c st,
     Http.body (match Http.Encode json_text (Http.ConnWriter c) st v with
                | Http.ConnWriter c' => c'
                | _ => c
                end)
     = (Http.body c ++ json_text (Http.Response_json (Http.envelope v))
        ++ [x0a])%list).
Proof.
  split; [by intros p -> |]. split; [by intros msg zero -> |].
  split; [by intros d -> |]. split.
  - rewrite Response_json_fields. eexists. split; [reflexivity |].
    destruct (Http.isEmptyValue (Http.Data (Http.envelope v))) eqn:Hd;
      destruct (Http.Error (Http.envelope v)) as [[m] |] eqn:He; simpl.
    all: repeat split; fields.
  - intros c st. by rewrite Encode_conn.
Qed.

Lemma C8_Encode_routes_errors_and_data_witness :
  Http.Error (Http.envelope (Http.ErrorValue "not found" Http.PNil))
    = Some {| Http.Message := "not found" |} /\
  Http.Data (Http.envelope (Http.PlainValue (Http.PInt 7))) = Http.PInt 7 /\
  Http.Error (Http.envelope (Http.PlainValue (Http.PInt 7))) = None.
Proof.
  destruct (C8_Encode_routes_errors_and_data Fixtures.no_text
              (Http.ErrorValue "not found" Http.PNil)) as (_ & Herr & _).
  destruct (C8_Encode_routes_errors_and_data Fixtures.no_text
              (Http.PlainValue (Http.PInt 7))) as (_ & _ & Hdata & _).
  split; [exact (Herr "not found" Http.PNil eq_refl) |].
  exact (Hdata (Http.PInt 7) eq_refl).
Defined.

(** C8 as stated fails: for a value that is not an error the encoded envelope
    has the data field only, for an error the error field only, and for a nil
    value no field at all. *)
Lemma C8_two_fields_counterexample :
  Http.Response_json (Http.envelope (Http.PlainValue (Http.PString "ok")))
    = Http.JObject [("data", Http.JString "ok")] /\
  Http.Response_json
    (Http.envelope (Http.ErrResponsePtr (Some {| Http.Message := "boom" |})))
    = Http.JObject [("error", Http.JObject [("message", Http.JString "boom")])] /\
  Http.Response_json (Http.envelope (Http.PlainValue Http.PNil))
    = Http.JObject [].
Proof. repeat split. Qed.

(* ===================================================================== *)
(** ** http: gzip compression *)
(* ===================================================================== *)

Section GzipFacts.
Import Http Fixtures.
Variable deflate : list byte -> list byte.
Variable gzipFooter : list byte -> list byte.

Lemma Get_Set (h : gmap string (list string)) (key value : string) :
  Get (Set_ key value h) key = value.
Proof. unfold Get, Set_. by rewrite lookup_insert_eq. Qed.

Lemma Get_Set_ne (h : gmap string (list string)) (key key' value : string) :
  key <> key' -> Get (Set_ key value h) key' = Get h key'.
Proof. intros Hne. unfold Get, Set_. by rewrite lookup_insert_ne. Qed.

(** The deferred function for a byte count that is not negative: the
    compressor is left as it is and [Content-Length] is set. *)
Lemma gzip_deferred_nonneg (rw : Writer) (g : gzipWriter) (s n : Z) (usr : string) :
  (0 <= n)%Z ->
  gzip_deferred (ResponseWriter (gzipResponseWriter rw g) s n usr)
  = ResponseWriter
      (gzipResponseWriter (Header_update (Set_ "Content-Length" (Itoa n)) rw) g)
      s n usr.
Proof.
  intros Hn. unfold gzip_deferred. cbn [written].
  destruct (Z.ltb_spec n 0); [lia |].
  cbn [written]. destruct (Z.gtb_spec n (-1)); [reflexivity | lia].
Qed.

(** The deferred function for a negative byte count: the compressor is reset
    to [io.Discard] and no [Content-Length] is set. *)
Lemma gzip_deferred_neg (rw : Writer) (g : gzipWriter) (s n : Z) (usr : string) :
  (n < 0)%Z ->
  gzip_deferred (ResponseWriter (gzipResponseWriter rw g) s n usr)
  = ResponseWriter (gzipResponseWriter rw (gz_Reset Discard)) s n usr.
Proof.
  intros Hn. unfold gzip_deferred. cbn [written].
  destruct (Z.ltb_spec n 0); [| lia].
  cbn [reset_gzw written]. destruct (Z.gtb_spec n (-1)); [lia | reflexivity].
Qed.

End GzipFacts.

Section GzipRun.
Import Http Fixtures.
Variable deflate : list byte -> list byte.
Variable gzipFooter : list byte -> list byte.

Lemma Get_Add_ne (h : gmap string (list string)) (key key' value : string) :
  key <> key' -> Get (Add key value h) key' = Get h key'.
Proof. intros Hne. unfold Get, Add. by rewrite lookup_insert_ne. Qed.

(** Closing a compressor that was fed nothing, after the deferred function
    ran on a byte count of zero: the gzip header, the compressed empty input
    and the footer are written to the connection, under a [Content-Length]
    of 0. *)
Lemma close_after_nothing (c : Conn) (s : Z) (usr : string) :
  close_gzw deflate gzipFooter
    (gzip_deferred
       (ResponseWriter
          (gzipResponseWriter (ConnWriter c) (gz_Reset ToResponseWriter))
          s 0 usr))
  = ConnWriter
      {| implFlusher := implFlusher c;
         hdr := Set_ "Content-Length" "0" (hdr c);
         sent := Some (default StatusOK (sent c));
         body := (body c ++ gzipHeader ++ deflate [] ++ gzipFooter [])%list;
         flushes := flushes c |}.
Proof.
  rewrite gzip_deferred_nonneg by lia.
  cbn [close_gzw gz_Close gz_Reset closed wroteHeader target fed emit
       Header_update Write fst].
  unfold conn_Write, conn_WriteHeader, conn_Header. cbn.
  destruct (sent c); cbn; by rewrite <- !app_assoc.
Qed.

Lemma GZip_nothing_written (c : Conn) (r : Request) (logs : list LogRecord) :
  Contains (Get (ReqHeader r) "Accept-Encoding") "gzip" = true ->
  Contains (ToLower (Get (ReqHeader r) "Connection")) "upgrade" = false ->
  exists c',
    MiddlewareGZip deflate gzipFooter (script []) (ConnWriter c) r logs
    = (ConnWriter c', logs) /\
    body c' = (body c ++ gzipHeader ++ deflate [] ++ gzipFooter [])%list /\
    Get (hdr c') "Content-Length" = "0" /\
    Get (hdr c') "Content-Encoding" = "gzip".
Proof.
  intros Hacc Hup. unfold MiddlewareGZip. rewrite Hacc, Hup. cbn [negb].
  cbn [WrapResponseWriter isFlusher]. unfold script, run. cbn [fold_left].
  cbn [Header_update].
  destruct (negb (Get (ReqHeader r) "ETag" =? "") &&
            negb (HasPrefix (Get (ReqHeader r) "ETag") "W/"));
    rewrite close_after_nothing; eexists; (split; [reflexivity |]);
    cbn [body hdr conn_Header]; (split; [reflexivity |]);
    rewrite Get_Set; (split; [reflexivity |]);
    rewrite ?Get_Set_ne, ?Get_Add_ne by discriminate; apply Get_Set.
Qed.

End GzipRun.

(** C2 on the code, at a request that accepts gzip and a handler that writes
    nothing.  The deferred function compares the byte count, which is 0, with
    the bounds [< 0] and [> -1]: it leaves the compressor on the response
    writer and sets [Content-Length] to 0; closing the compressor then writes
    a complete gzip stream of the empty input, footer included, to the
    connection.  (The comment at the reset says no footer is to be written
    when nothing was written to the body.) *)
Theorem C2_gzip_footer_emitted_when_nothing_written
    (deflate gzipFooter : list byte -> list byte) :
  (forall rw g s usr,
     Http.gzip_deferred
       (Http.ResponseWriter (Http.gzipResponseWriter rw g) s 0 usr)
     = Http.ResponseWriter
         (Http.gzipResponseWriter
            (Http.Header_update (Http.Set_ "Content-Length" "0") rw) g)
         s 0 usr) /\
  (exists c',
     Http.MiddlewareGZip deflate gzipFooter (Fixtures.script [])
       (Fixtures.conn true) (Fixtures.request [("Accept-Encoding", "gzip")]) []
     = (Http.ConnWriter c', []) /\
     Http.body c' = (Http.gzipHeader ++ deflate [] ++ gzipFooter [])%list /\
     Http.Get (Http.hdr c') "Content-Length" = "0" /\
     Http.Get (Http.hdr c') "Content-Encoding" = "gzip").
Proof.
  split.
  - intros rw g s usr. by rewrite gzip_deferred_nonneg.
  - apply (GZip_nothing_written deflate gzipFooter
             {| Http.implFlusher := true; Http.hdr := ∅; Http.sent := None;
                Http.body := []; Http.flushes := 0 |}); reflexivity.
Qed.

(** The other half of C2 holds: a handler that wrote two bytes leaves
    [Content-Length: 2], the count of bytes handed to the compressor. *)
Example GZip_two_bytes (deflate gzipFooter : list byte -> list byte) :
  Http.Get
    (Http.Header
       (fst (Http.MiddlewareGZip deflate gzipFooter
               (Fixtures.script [Fixtures.CallWrite [x68; x69]])
               (Fixtures.conn true)
               (Fixtures.request [("Accept-Encoding", "gzip")]) [])))
    "Content-Length" = "2".
Proof. reflexivity. Qed.

(* ===================================================================== *)
(** * Further properties of the code *)
(* ===================================================================== *)

(** ** ptr and grpc *)

(** X1.  [From] keeps every value that is not [==] to the zero value:
    reading the pointer it returns gives back the argument, and two
    arguments with the same result are equal when one of them is not [==] to
    zero.  Every value that is [==] to zero gives nil, which reads back as the
    zero value: of the two floating-point zeros only the positive one
    survives. *)
Theorem From_deref_roundtrip {T : Type} (eq : T -> T -> bool) (zero a b : T) :
  (eq a zero = false -> default zero (Ptr.From eq zero a) = a) /\
  (eq a zero = true -> default zero (Ptr.From eq zero a) = zero) /\
  (eq a zero = false -> Ptr.From eq zero a = Ptr.From eq zero b -> a = b).
Proof.
  unfold Ptr.From. split; [| split].
  - by intros ->.
  - by intros ->.
  - intros ->. destruct (eq b zero); [discriminate | by intros [= ->]].
Qed.

Lemma From_deref_roundtrip_witness :
  default "" (Ptr.From String.eqb "" "db") = "db" /\
  default Ptr.PosZero (Ptr.From Ptr.float_eq Ptr.PosZero Ptr.NegZero)
    = Ptr.PosZero /\
  default Ptr.PosZero (Ptr.From Ptr.float_eq Ptr.PosZero Ptr.NaN) = Ptr.NaN.
Proof.
  split; [| split].
  - by apply (From_deref_roundtrip String.eqb "" "db" "db").
  - by apply (From_deref_roundtrip Ptr.float_eq Ptr.PosZero Ptr.NegZero
                Ptr.NegZero).
  - by apply (From_deref_roundtrip Ptr.float_eq Ptr.PosZero Ptr.NaN Ptr.NaN).
Defined.

(** X2.  [Validate] accepts exactly two shapes of configuration: a listener
    with no host and port zero, or no listener with a host and a port that is
    not negative.  A nil configuration is rejected. *)
Theorem Validate_accepts_iff (cfg : Grpc.ServerConfig) :
  (Grpc.Validate (Some cfg) = None <->
     (is_Some (Grpc.Listener_ cfg) /\ Grpc.Host cfg = "" /\ Grpc.Port cfg = 0%Z)
     \/ (Grpc.Listener_ cfg = None /\ Grpc.Host cfg <> ""
         /\ (0 <= Grpc.Port cfg)%Z)) /\
  Grpc.Validate None = Some "config is nil".
Proof.
  split; [| reflexivity].
  unfold Grpc.Validate.
  destruct (Grpc.Listener_ cfg) as [l |] eqn:Hl;
    destruct (String.eqb_spec (Grpc.Host cfg) "") as [Hh | Hh]; simpl.
  - destruct (Z.eqb_spec (Grpc.Port cfg) 0) as [Hp | Hp]; simpl.
    + split; [intros _ | done]. left. by eauto.
    + split; [done |]. intros [(_ & _ & Hp') | (Hn & _)]; done.
  - split; [done |]. intros [(_ & Hh' & _) | (Hn & _)]; done.
  - split; [done |]. intros [([x Hx] & _) | (_ & Hh' & _)]; done.
  - destruct (Z.ltb_spec (Grpc.Port cfg) 0) as [Hp | Hp].
    + split; [done |]. intros [([x Hx] & _) | (_ & _ & Hp')]; [done | lia].
    + split; [intros _ | done]. right. done.
Qed.

(** ** http: the response writer wrapper *)

Section WrapperFacts.
Import Http Fixtures.

Lemma run_app (a b : list Call) (w : Writer) :
  run (a ++ b) w = run b (run a w).
Proof. unfold run. apply fold_left_app. Qed.

Lemma counts_app (a b : list Call) (w : Writer) :
  counts (a ++ b) w = (counts a w + counts b (run a w))%Z.
Proof.
  revert w. induction a as [| c a IH]; intros w; simpl; [reflexivity |].
  rewrite IH. fold (run a (do_call w c)). lia.
Qed.

Lemma do_call_ResponseWriter (c : Call) (u : Writer) (s n : Z) (usr : string) :
  exists s' n',
    do_call (ResponseWriter u s n usr) c = ResponseWriter (do_call u c) s' n' usr.
Proof.
  destruct c as [x | p | | k v]; simpl; try by eauto.
  destruct (Write u p) as [u' k]. simpl. by eauto.
Qed.

Lemma Write_count_ResponseWriter (u : Writer) (s n : Z) (usr : string) p :
  snd (Write (ResponseWriter u s n usr) p) = snd (Write u p).
Proof. simpl. by destruct (Write u p). Qed.

End WrapperFacts.

(** X3.  The wrapper forwards transparently: after any sequence of calls on a
    [*ResponseWriter], the writer it wraps is in the state it would be in had
    the calls been made on it directly, the [Write] calls returned the same
    counts, and the user field is untouched. *)
Theorem ResponseWriter_forwards
    (calls : list Fixtures.Call) (u : Http.Writer) (s n : Z) (usr : string) :
  Http.writer (Fixtures.run calls (Http.ResponseWriter u s n usr))
    = Fixtures.run calls u /\
  Fixtures.counts calls (Http.ResponseWriter u s n usr) = Fixtures.counts calls u /\
  Http.user (Fixtures.run calls (Http.ResponseWriter u s n usr)) = usr /\
  Http.Header (Fixtures.run calls (Http.ResponseWriter u s n usr))
    = Http.Header (Fixtures.run calls u).
Proof.
  revert u s n.
  induction calls as [| c calls IH]; intros u s n; [done |].
  rewrite !run_cons. cbn [Fixtures.counts].
  destruct (do_call_ResponseWriter c u s n usr) as (s' & n' & ->).
  destruct (IH (Fixtures.do_call u c) s' n') as (Hw & Hc & Hu & Hh).
  rewrite Hw, Hc, Hu, Hh. repeat split.
  destruct c; try reflexivity. by rewrite Write_count_ResponseWriter.
Qed.

(** X4.  The byte count never goes down: as long as the total stays in the
    range of an [int], the count after a prefix of the calls is at most the
    count after all of them. *)
Theorem written_monotone
    (calls1 calls2 : list Fixtures.Call) (u : Http.Writer) (s n : Z)
    (usr : string) :
  (0 <= n)%Z ->
  (n + Fixtures.counts (calls1 ++ calls2) (Http.ResponseWriter u s n usr)
   < 2 ^ 63)%Z ->
  (n <= Http.written (Fixtures.run calls1 (Http.ResponseWriter u s n usr))
     <= Http.written
          (Fixtures.run (calls1 ++ calls2) (Http.ResponseWriter u s n usr)))%Z.
Proof.
  intros Hn Hlt.
  pose proof (counts_nonneg calls1 (Http.ResponseWriter u s n usr)) as H1.
  pose proof (counts_nonneg calls2
                (Fixtures.run calls1 (Http.ResponseWriter u s n usr))) as H2.
  pose proof (counts_app calls1 calls2 (Http.ResponseWriter u s n usr)) as Happ.
  destruct (run_ResponseWriter calls1 u s n usr) as [u1 Hr1]; [lia |].
  destruct (run_ResponseWriter (calls1 ++ calls2) u s n usr) as [u2 Hr2]; [lia |].
  rewrite Hr1, Hr2. cbn [Http.written].
  rewrite !int_wrap_small by lia. lia.
Qed.

Lemma written_monotone_witness :
  (0 <= Http.written
          (Fixtures.run [Fixtures.CallWrite [x61]]
             (Http.ResponseWriter (Fixtures.conn true) 200 0 ""))
     <= Http.written
          (Fixtures.run ([Fixtures.CallWrite [x61]] ++ [Fixtures.CallWrite [x62; x63]])
             (Http.ResponseWriter (Fixtures.conn true) 200 0 "")))%Z.
Proof.
  apply (written_monotone [Fixtures.CallWrite [x61]]
           [Fixtures.CallWrite [x62; x63]] (Fixtures.conn true) 200 0 "").
  - lia.
  - vm_compute. reflexivity.
Defined.

(** X5.  [GroupedStatus] rounds the recorded status towards zero to a
    multiple of 100: for a status that is not negative the result is the
    hundred at or below it. *)
Theorem GroupedStatus_bounds (u : Http.Writer) (s n : Z) (usr : string) :
  (Http.GroupedStatus (Http.ResponseWriter u s n usr) mod 100 = 0)%Z /\
  ((0 <= s)%Z ->
     (Http.GroupedStatus (Http.ResponseWriter u s n usr) <= s
      < Http.GroupedStatus (Http.ResponseWriter u s n usr) + 100)%Z) /\
  ((s <= 0)%Z ->
     (Http.GroupedStatus (Http.ResponseWriter u s n usr) - 100 < s
      <= Http.GroupedStatus (Http.ResponseWriter u s n usr))%Z).
Proof.
  unfold Http.GroupedStatus. cbn [Http.status].
  pose proof (Z.quot_rem' s 100) as Hqr.
  split; [apply Z_mod_mult |]. split; intros Hs.
  - pose proof (Z.rem_bound_pos s 100 Hs). lia.
  - pose proof (Z.rem_bound_pos (- s) 100) as Hb.
    rewrite Z.rem_opp_l in Hb by lia. lia.
Qed.

Lemma GroupedStatus_bounds_witness :
  (Http.GroupedStatus (Http.ResponseWriter (Fixtures.conn true) 404 0 "") <= 404
   < Http.GroupedStatus (Http.ResponseWriter (Fixtures.conn true) 404 0 "") + 100)%Z.
Proof.
  apply (GroupedStatus_bounds (Fixtures.conn true) 404 0 ""). lia.
Defined.

(** ** http: composing chains *)

(** X6.  Chains compose: the chain of a concatenated list is the chain of the
    first list applied to the chain of the second, so a chain can itself be
    used as one middleware of another chain. *)
Theorem MiddlewareChain_app (a b : list Http.Middleware) (h : Http.Handler) :
  Http.MiddlewareChain (a ++ b) h
    = Http.MiddlewareChain a (Http.MiddlewareChain b h) /\
  Http.MiddlewareChain [Http.MiddlewareChain a; Http.MiddlewareChain b] h
    = Http.MiddlewareChain (a ++ b) h.
Proof.
  rewrite !MiddlewareChain_nest. unfold Fixtures.nest.
  rewrite fold_right_app. split; [reflexivity |].
  simpl. by rewrite !MiddlewareChain_nest.
Qed.

(** ** http: constructing the authentication middleware *)

Section AuthConstruction.
Import Http.

Lemma build_lookup_agree (users users' : list string) :
  forall (keys : list string) (i : nat) (m : gmap string string),
    (forall j, (j < i + length keys)%nat -> users !! j = users' !! j) ->
    build_lookup i keys users m = build_lookup i keys users' m.
Proof.
  induction keys as [| k keys IH]; intros i m Hag; [reflexivity |].
  cbn [build_lookup]. rewrite <- (Hag i) by (simpl; lia).
  destruct (users !! i) as [u |]; [| reflexivity].
  apply IH. intros j Hj. apply Hag. simpl. lia.
Qed.

End AuthConstruction.

(** X7.  [MiddlewareAuthentication] returns a middleware exactly when there
    are at least as many users as keys; with fewer users it panics on the
    index.  Users beyond the number of keys are never looked at: cutting the
    list of users to the length of the keys gives the same table. *)
Theorem MiddlewareAuthentication_needs_enough_users
    (json_text : Http.Json -> list byte) (Quote : string -> string)
    (keys users : list string) :
  (is_Some (Http.build_lookup 0 keys users ∅)
     <-> (length keys <= length users)%nat) /\
  (Http.MiddlewareAuthentication json_text Quote keys users = None
     <-> (length users < length keys)%nat) /\
  Http.build_lookup 0 keys (take (length keys) users) ∅
    = Http.build_lookup 0 keys users ∅.
Proof.
  assert (Hle : (length keys <= length users)%nat ->
                is_Some (Http.build_lookup 0 keys users ∅)).
  { intros H. destruct (build_lookup_from users keys 0 ∅) as (tbl & -> & _);
      [lia | by eexists]. }
  assert (Hlt : (length users < length keys)%nat ->
                Http.build_lookup 0 keys users ∅ = None).
  { intros H. apply build_lookup_short. lia. }
  split; [| split].
  - split; [| exact Hle]. intros Hs.
    destruct (Nat.le_gt_cases (length keys) (length users)) as [H | H];
      [exact H |]. rewrite (Hlt H) in Hs. by destruct Hs.
  - unfold Http.MiddlewareAuthentication. split.
    + intros Hn.
      destruct (Nat.le_gt_cases (length keys) (length users)) as [H | H];
        [| exact H].
      destruct (Hle H) as [tbl Htbl]. by rewrite Htbl in Hn.
    + intros H. by rewrite (Hlt H).
  - apply build_lookup_agree. intros j Hj. apply lookup_take_lt. simpl in Hj. lia.
Qed.

Lemma MiddlewareAuthentication_needs_enough_users_witness :
  Http.MiddlewareAuthentication Fixtures.no_text Fixtures.quote
    ["k1"; "k2"] ["ann"] = None.
Proof.
  apply (MiddlewareAuthentication_needs_enough_users
           Fixtures.no_text Fixtures.quote ["k1"; "k2"] ["ann"]).
  simpl. lia.
Defined.

(** ** http: logging around authentication *)

Section LoggedAuthFacts.
Import Http Fixtures.

Lemma run_status (calls : list Call) :
  forall (u : Writer) (s n : Z) (usr : string),
    status (run calls (ResponseWriter u s n usr)) = List.last (codes calls) s.
Proof.
  induction calls as [| c calls IH]; intros u s n usr; [reflexivity |].
  rewrite run_cons.
  destruct c as [x | p | | k v]; cbn [do_call].
  - cbn [WriteHeader]. rewrite IH.
    change (codes (CallWriteHeader x :: calls)) with (x :: codes calls).
    by rewrite last_cons_default.
  - cbn [Write]. destruct (Write u p) as [u1 k]. cbn [fst]. by rewrite IH.
  - cbn [Flush]. by rewrite IH.
  - cbn [Header_update]. by rewrite IH.
Qed.

Lemma run_user (calls : list Call) :
  forall (u : Writer) (s n : Z) (usr : string),
    user (run calls (ResponseWriter u s n usr)) = usr.
Proof.
  induction calls as [| c calls IH]; intros u s n usr; [reflexivity |].
  rewrite run_cons.
  destruct (do_call_ResponseWriter c u s n usr) as (s' & n' & ->). apply IH.
Qed.

Lemma released_wrapped (w w' : Writer) :
  isWrapped w = true -> released w w' = w'.
Proof. by destruct w. Qed.

End LoggedAuthFacts.

(** X8.  With the logging middleware around the authentication middleware,
    both work on one wrapper.  For a request whose key is in the table, the
    access log entry names the identity of the key and the last status the
    handler set; for a request with no key, the entry has status 401 and
    level warn.  The response writer must be wrappable. *)
Theorem logging_sees_authenticated_user
    (json_text : Http.Json -> list byte) (Quote : string -> string)
    (lookup : gmap string string) (calls : list Fixtures.Call)
    (rw wrapped : Http.Writer) (req : Http.Request)
    (logs : list Http.LogRecord) :
  Http.WrapResponseWriter rw = Http.Ok wrapped ->
  (forall usr,
     Http.Get (Http.ReqHeader req) "X-API-Key" <> "" ->
     lookup !! Http.Get (Http.ReqHeader req) "X-API-Key" = Some usr ->
     exists e,
       snd (Http.MiddlewareLogging
              (Http.authenticate json_text Quote lookup (Fixtures.script calls))
              rw req logs) = (logs ++ [e])%list /\
       In ("user", Http.AString usr) (Http.attrs e) /\
       In ("status",
           Http.AInt (List.last (Fixtures.codes calls) (Http.status wrapped)))
          (Http.attrs e)) /\
  (Http.Get (Http.ReqHeader req) "X-API-Key" = "" ->
     exists e,
       snd (Http.MiddlewareLogging
              (Http.authenticate json_text Quote lookup (Fixtures.script calls))
              rw req logs) = (logs ++ [e])%list /\
       Http.level e = Http.LevelWarn /\
       In ("status", Http.AInt 401) (Http.attrs e)).
Proof.
  intros Hw.
  destruct (Wrap_Ok_inv rw wrapped Hw) as [Hwr _].
  pose proof (Wrap_wrapped wrapped Hwr) as Hagain.
  destruct wrapped as [c | u s n usr0 | u g]; try discriminate.
  destruct (Logging_wrapped
              (Http.authenticate json_text Quote lookup (Fixtures.script calls))
              rw req logs _ Hw) as (e & Heq & _ & Hst & _ & Husr & Hlvl).
  split.
  - intros usr Hk Hl.
    rewrite (authenticate_known_key json_text Quote lookup _
               (Http.ResponseWriter u s n usr0) req logs usr _ Hk Hl Hagain)
      in Heq, Hst, Husr.
    cbn [Http.set_user Fixtures.script fst snd] in Heq, Hst, Husr.
    rewrite released_wrapped in Hst, Husr by reflexivity.
    rewrite run_status in Hst.
    rewrite run_user in Husr.
    exists e. rewrite Heq. by cbn [snd].
  - intros Hk.
    rewrite (authenticate_no_key json_text Quote lookup _
               (Http.ResponseWriter u s n usr0) req logs Hk)
      in Heq, Hst, Hlvl.
    cbn [fst snd] in Heq, Hst, Hlvl.
    rewrite EncodeErr_status in Hst, Hlvl.
    exists e. rewrite Heq. by cbn [snd].
Qed.

Lemma logging_sees_authenticated_user_witness :
  exists e,
    snd (Http.MiddlewareLogging
           (Http.authenticate Fixtures.no_text Fixtures.quote
              {["secret" := "alice"]}
              (Fixtures.script [Fixtures.CallWriteHeader 204]))
           (Fixtures.conn true)
           (Fixtures.request [("X-API-Key", "secret")]) []) = [e] /\
    In ("user", Http.AString "alice") (Http.attrs e) /\
    In ("status", Http.AInt 204) (Http.attrs e).
Proof.
  destruct (logging_sees_authenticated_user Fixtures.no_text Fixtures.quote
              {["secret" := "alice"]} [Fixtures.CallWriteHeader 204]
              (Fixtures.conn true)
              (Http.ResponseWriter (Fixtures.conn true) 200 0 "")
              (Fixtures.request [("X-API-Key", "secret")]) [] eq_refl)
    as [Hknown _].
  apply (Hknown "alice"); [discriminate | reflexivity].
Defined.

(** ** http: the content type of YAML paths *)

Section ExtFacts.
Import Http Middleware.

Lemma list_ascii_of_string_app (a b : string) :
  list_ascii_of_string (a ++ b)
  = (list_ascii_of_string a ++ list_ascii_of_string b)%list.
Proof. induction a as [| c a IH]; simpl; [reflexivity | by rewrite IH]. Qed.

Lemma string_of_list_ascii_app (a b : list ascii) :
  string_of_list_ascii (a ++ b)
  = string_of_list_ascii a ++ string_of_list_ascii b.
Proof. induction a as [| c a IH]; simpl; [reflexivity | by rewrite IH]. Qed.

(** What [ext_scan] returns is the end of the bytes it was given, followed by
    the suffix it started from, or nothing. *)
Lemma ext_scan_suffix (l : list ascii) :
  forall s : string,
    exists q : list ascii,
      (rev l ++ list_ascii_of_string s)%list
      = (q ++ list_ascii_of_string (ext_scan l s))%list.
Proof.
  induction l as [| c l IH]; intros s.
  - exists (list_ascii_of_string s). simpl. by rewrite app_nil_r.
  - cbn [ext_scan rev].
    assert (Hshift : ((rev l ++ [c]) ++ list_ascii_of_string s)%list
                     = (rev l ++ list_ascii_of_string (String c s))%list)
      by (by rewrite <- app_assoc).
    destruct (Ascii.eqb c "/").
    + exists ((rev l ++ [c]) ++ list_ascii_of_string s)%list.
      simpl. by rewrite app_nil_r.
    + destruct (Ascii.eqb c ".").
      * exists (rev l). exact Hshift.
      * destruct (IH (String c s)) as [q Hq]. exists q. by rewrite Hshift.
Qed.

Lemma Ext_is_suffix (path : string) : exists q, path = q ++ Ext path.
Proof.
  destruct (ext_scan_suffix (rev (list_ascii_of_string path)) "") as [q Hq].
  rewrite rev_involutive in Hq. simpl in Hq. rewrite app_nil_r in Hq.
  exists (string_of_list_ascii q). fold (Ext path) in Hq.
  apply (f_equal string_of_list_ascii) in Hq.
  by rewrite string_of_list_ascii_app, !string_of_list_ascii_of_string in Hq.
Qed.

Lemma Ext_yaml (p : string) : Ext (p ++ ".yaml") = ".yaml".
Proof.
  unfold Ext. by rewrite list_ascii_of_string_app, rev_app_distr.
Qed.

Lemma Ext_yml (p : string) : Ext (p ++ ".yml") = ".yml".
Proof.
  unfold Ext. by rewrite list_ascii_of_string_app, rev_app_distr.
Qed.

End ExtFacts.

(** X9.  [MiddlewareContentType] sets the response header [Content-Type] to
    [application/x-yaml] before the inner handler runs exactly for the
    request paths that end in [.yaml] or [.yml]; for every other path the
    inner handler gets the writer as it came in. *)
Theorem MiddlewareContentType_yaml_paths
    (next : Http.Handler) (rw : Http.Writer) (r : Http.Request)
    (logs : list Http.LogRecord) :
  ((exists p, Http.URLPath r = p ++ ".yaml")
   \/ (exists p, Http.URLPath r = p ++ ".yml") ->
   Middleware.MiddlewareContentType next rw r logs
   = next (Http.Header_update
             (Http.Set_ "Content-Type" "application/x-yaml") rw) r logs) /\
  (~ ((exists p, Http.URLPath r = p ++ ".yaml")
      \/ (exists p, Http.URLPath r = p ++ ".yml")) ->
   Middleware.MiddlewareContentType next rw r logs = next rw r logs).
Proof.
  unfold Middleware.MiddlewareContentType. split.
  - intros [[p ->] | [p ->]].
    + by rewrite Ext_yaml.
    + by rewrite Ext_yml.
  - intros Hno.
    destruct (Ext_is_suffix (Http.URLPath r)) as [q Hq].
    destruct (String.eqb_spec (Middleware.Ext (Http.URLPath r)) ".yaml") as [He | _].
    + exfalso. apply Hno. left. exists q. by rewrite <- He.
    + destruct (String.eqb_spec (Middleware.Ext (Http.URLPath r)) ".yml")
        as [He | _]; [| reflexivity].
      exfalso. apply Hno. right. exists q. by rewrite <- He.
Qed.

Lemma MiddlewareContentType_yaml_paths_witness :
  Middleware.MiddlewareContentType (Fixtures.probe "inner") (Fixtures.conn true)
    {| Http.Method := "GET"; Http.URLPath := "/docs/openapi.yaml";
       Http.ReqHeader := ∅; Http.CtxRequestID := None |} []
  = (Http.Header_update (Http.Set_ "Content-Type" "application/x-yaml")
       (Fixtures.conn true),
     [Fixtures.mark "inner"]).
Proof.
  pose proof (MiddlewareContentType_yaml_paths (Fixtures.probe "inner")
                (Fixtures.conn true)
                {| Http.Method := "GET"; Http.URLPath := "/docs/openapi.yaml";
                   Http.ReqHeader := ∅; Http.CtxRequestID := None |} [])
    as [Hyaml _].
  rewrite Hyaml; [reflexivity |]. left. by exists "/docs/openapi".
Defined.

(** ** http: request identifiers *)

(** X10.  [MiddlewareRequestID] hands the inner handler a request whose
    context holds the identifier of the [X-Request-Id] header when the header
    is not empty, whatever the generator returns; otherwise the generated
    identifier, and when generation failed the context as it was.  Around the
    logging middleware, the identifier of the header is the [request_id] of
    the access log entry. *)
Theorem MiddlewareRequestID_spec
    (newRandom : option string) (next : Http.Handler)
    (rw : Http.Writer) (r : Http.Request) (logs : list Http.LogRecord) :
  (Http.Get (Http.ReqHeader r) "X-Request-Id" <> "" ->
     Middleware.MiddlewareRequestID newRandom next rw r logs
     = next rw (Middleware.WithRequestID r
                  (Some (Http.Get (Http.ReqHeader r) "X-Request-Id"))) logs) /\
  (Http.Get (Http.ReqHeader r) "X-Request-Id" = "" ->
     Middleware.MiddlewareRequestID newRandom next rw r logs
     = next rw (Middleware.WithRequestID r
                  (match newRandom with
                   | Some id => Some id
                   | None => Http.CtxRequestID r
                   end)) logs) /\
  (forall wrapped,
     Http.Get (Http.ReqHeader r) "X-Request-Id" <> "" ->
     Http.WrapResponseWriter rw = Http.Ok wrapped ->
     exists e rest,
       snd (Middleware.MiddlewareRequestID newRandom
              (Http.MiddlewareLogging next) rw r logs)
       = (snd (next wrapped
                 (Middleware.WithRequestID r
                    (Some (Http.Get (Http.ReqHeader r) "X-Request-Id"))) logs)
          ++ [e])%list /\
       Http.attrs e
       = ("request_id",
          Http.AString (Http.Get (Http.ReqHeader r) "X-Request-Id")) :: rest).
Proof.
  unfold Middleware.MiddlewareRequestID, Http.RequestIDHeader. split; [| split].
  - intros Hid. by rewrite (eqb_empty_false _ Hid).
  - intros ->. reflexivity.
  - intros wrapped Hid Hw. rewrite (eqb_empty_false _ Hid). cbn [negb].
    unfold Http.MiddlewareLogging. rewrite Hw.
    destruct (next wrapped _ logs) as [w' logs']. cbn [snd].
    eexists. eexists. split; reflexivity.
Qed.

Lemma MiddlewareRequestID_spec_witness :
  Middleware.MiddlewareRequestID (Some "generated") (Fixtures.probe "inner")
    (Fixtures.conn true) (Fixtures.request [("X-Request-Id", "abc")]) []
  = Fixtures.probe "inner" (Fixtures.conn true)
      (Middleware.WithRequestID (Fixtures.request [("X-Request-Id", "abc")])
         (Some "abc")) [].
Proof.
  pose proof (MiddlewareRequestID_spec (Some "generated") (Fixtures.probe "inner")
                (Fixtures.conn true)
                (Fixtures.request [("X-Request-Id", "abc")]) []) as [Hid _].
  apply Hid. discriminate.
Defined.

(** ** http: request metrics *)

(** X11.  A provider that fails to create one of the two instruments makes
    the constructor panic.  Otherwise every request records 1 and then -1 on
    the in-flight gauge.  When the response writer can be wrapped (it is
    already a [*ResponseWriter], or it can flush), the request counter is
    incremented once in between; its status attribute is the last status the
    handler set, or the status the wrapper held when the handler set none
    (200 for a wrapper made by this middleware), rounded to its hundred.
    When the writer cannot be wrapped the counter is not touched. *)
Theorem MiddlewareMetric_measurements
    (provider : Middleware.MeterProvider) (calls : list Fixtures.Call)
    (rw : Http.Writer) (r : Http.Request) (logs : list Http.LogRecord) :
  (is_Some (Middleware.Int64CounterErr provider)
   \/ is_Some (Middleware.Int64GaugeErr provider) ->
   exists msg, Middleware.MiddlewareMetric provider = Http.Err msg) /\
  (Middleware.Int64CounterErr provider = None ->
   Middleware.Int64GaugeErr provider = None ->
   exists mw,
     Middleware.MiddlewareMetric provider = Http.Ok mw /\
     (forall wrapped,
        Http.WrapResponseWriter rw = Http.Ok wrapped ->
        snd (mw (Fixtures.script calls) rw r logs)
        = [Middleware.GaugeRecord "in_flight" 1;
           Middleware.CounterAdd "requests" 1
             (Z.quot (List.last (Fixtures.codes calls) (Http.status wrapped))
                100 * 100);
           Middleware.GaugeRecord "in_flight" (-1)] /\
        (Fixtures.isWrapped rw = false -> Http.status wrapped = 200%Z) /\
        (Fixtures.isWrapped rw = true -> wrapped = rw)) /\
     (forall msg,
        Http.WrapResponseWriter rw = Http.Err msg ->
        snd (mw (Fixtures.script calls) rw r logs)
        = [Middleware.GaugeRecord "in_flight" 1;
           Middleware.GaugeRecord "in_flight" (-1)])).
Proof.
  unfold Middleware.MiddlewareMetric. split.
  - intros [[e He] | [e He]]; rewrite He.
    + by eexists.
    + destruct (Middleware.Int64CounterErr provider); by eexists.
  - intros -> ->. eexists. split; [reflexivity |]. split.
    + intros wrapped Hw. rewrite Hw.
      destruct (Wrap_Ok_inv rw wrapped Hw) as [Hwr Hcases].
      destruct wrapped as [c | u s n usr | u g]; try discriminate.
      cbn [Fixtures.script snd]. unfold Http.GroupedStatus.
      rewrite run_status. cbn [Http.status].
      split; [reflexivity |]. split.
      * intros Hnw. destruct Hcases as [<- | [_ [= _ -> _]]];
          [discriminate | reflexivity].
      * intros Hyes. destruct Hcases as [<- | [Hno _]];
          [reflexivity | congruence].
    + intros msg Hw. by rewrite Hw.
Qed.

Lemma MiddlewareMetric_measurements_witness :
  exists mw,
    Middleware.MiddlewareMetric
      {| Middleware.Int64CounterErr := None; Middleware.Int64GaugeErr := None |}
    = Http.Ok mw /\
    snd (mw (Fixtures.script [Fixtures.CallWriteHeader 404]) (Fixtures.conn true)
           (Fixtures.request []) [])
    = [Middleware.GaugeRecord "in_flight" 1;
       Middleware.CounterAdd "requests" 1 400;
       Middleware.GaugeRecord "in_flight" (-1)] /\
    snd (mw (Fixtures.script [])
           (Http.ResponseWriter (Fixtures.conn true) 503 0 "")
           (Fixtures.request []) [])
    = [Middleware.GaugeRecord "in_flight" 1;
       Middleware.CounterAdd "requests" 1 500;
       Middleware.GaugeRecord "in_flight" (-1)].
Proof.
  destruct (MiddlewareMetric_measurements
              {| Middleware.Int64CounterErr := None;
                 Middleware.Int64GaugeErr := None |}
              [Fixtures.CallWriteHeader 404] (Fixtures.conn true)
              (Fixtures.request []) []) as [_ Hok].
  destruct (Hok eq_refl eq_refl) as (mw & Hmw & Hwrapped & _).
  destruct (MiddlewareMetric_measurements
              {| Middleware.Int64CounterErr := None;
                 Middleware.Int64GaugeErr := None |}
              [] (Http.ResponseWriter (Fixtures.conn true) 503 0 "")
              (Fixtures.request []) []) as [_ Hok'].
  destruct (Hok' eq_refl eq_refl) as (mw' & Hmw' & Hwrapped' & _).
  exists mw. split; [exact Hmw |]. split.
  - by apply (Hwrapped (Http.ResponseWriter (Fixtures.conn true) 200 0 "")).
  - assert (mw' = mw) as <- by congruence.
    by apply (Hwrapped' (Http.ResponseWriter (Fixtures.conn true) 503 0 "")).
Defined.

(** ** http: when the gzip middleware steps aside *)

Section ContainsFacts.
Import Http.

Lemma append_cons (c : ascii) (a b : string) :
  String c a ++ b = String c (a ++ b).
Proof. reflexivity. Qed.

Lemma HasPrefix_spec (s prefix : string) :
  HasPrefix s prefix = true <-> exists b, s = prefix ++ b.
Proof.
  revert s. induction prefix as [| c prefix IH]; intros s.
  - split; [intros _; by exists s | by destruct s].
  - destruct s as [| d s]; simpl; [split; [done | by intros [b Hb]] |].
    destruct (Ascii.eqb_spec c d) as [-> | Hne]; simpl.
    + rewrite IH. split; intros [b Hb]; exists b;
        rewrite append_cons in *; congruence.
    + split; [done |]. intros [b Hb]. rewrite append_cons in Hb. congruence.
Qed.

(** [Contains] is true exactly for the strings that have [substr] somewhere
    inside. *)
Lemma Contains_spec (s substr : string) :
  Contains s substr = true <-> exists a b, s = a ++ substr ++ b.
Proof.
  induction s as [| c s IH].
  - cbn [Contains]. rewrite orb_false_r, HasPrefix_spec. split.
    + intros [b Hb]. by exists "", b.
    + intros (a & b & Hab). destruct a as [| x a]; [| discriminate].
      by exists b.
  - cbn [Contains]. rewrite orb_true_iff, HasPrefix_spec, IH. split.
    + intros [[b Hb] | (a & b & Hab)].
      * by exists "", b.
      * exists (String c a), b. by rewrite append_cons, Hab.
    + intros (a & b & Hab). destruct a as [| x a].
      * left. by exists b.
      * right. exists a, b. rewrite append_cons in Hab. congruence.
Qed.

End ContainsFacts.

(** X12.  The gzip middleware is the inner handler, unchanged, when the
    [Accept-Encoding] header of the request does not have [gzip] inside
    (in particular when the header is missing), and also when the
    lower-cased [Connection] header has [upgrade] inside. *)
Theorem MiddlewareGZip_bypass
    (deflate gzipFooter : list byte -> list byte) (next : Http.Handler)
    (rw : Http.Writer) (r : Http.Request) (logs : list Http.LogRecord) :
  ((~ exists a b,
        Http.Get (Http.ReqHeader r) "Accept-Encoding" = a ++ "gzip" ++ b) ->
   Http.MiddlewareGZip deflate gzipFooter next rw r logs = next rw r logs) /\
  (Http.ReqHeader r !! "Accept-Encoding" = None ->
   Http.MiddlewareGZip deflate gzipFooter next rw r logs = next rw r logs) /\
  ((exists a b,
       Http.ToLower (Http.Get (Http.ReqHeader r) "Connection")
       = a ++ "upgrade" ++ b) ->
   Http.MiddlewareGZip deflate gzipFooter next rw r logs = next rw r logs).
Proof.
  assert (Hno : (~ exists a b,
                   Http.Get (Http.ReqHeader r) "Accept-Encoding"
                   = a ++ "gzip" ++ b) ->
                Http.MiddlewareGZip deflate gzipFooter next rw r logs
                = next rw r logs).
  { intros Hn. unfold Http.MiddlewareGZip.
    destruct (Http.Contains _ "gzip") eqn:Hc; [| reflexivity].
    apply Contains_spec in Hc. by destruct Hn. }
  split; [exact Hno |]. split.
  - intros Hnone. apply Hno. unfold Http.Get. rewrite Hnone.
    intros (a & b & Hab). destruct a; discriminate.
  - intros Hup. apply Contains_spec in Hup. unfold Http.MiddlewareGZip.
    rewrite Hup. by destruct (Http.Contains _ "gzip").
Qed.

Lemma MiddlewareGZip_bypass_witness :
  Http.MiddlewareGZip (fun p => p) (fun _ => []) (Fixtures.probe "inner")
    (Fixtures.conn true)
    (Fixtures.request [("Accept-Encoding", "gzip"); ("Connection", "Upgrade")]) []
  = Fixtures.probe "inner" (Fixtures.conn true)
      (Fixtures.request [("Accept-Encoding", "gzip"); ("Connection", "Upgrade")])
      [].
Proof.
  pose proof (MiddlewareGZip_bypass (fun p => p) (fun _ => [])
                (Fixtures.probe "inner") (Fixtures.conn true)
                (Fixtures.request
                   [("Accept-Encoding", "gzip"); ("Connection", "Upgrade")]) [])
    as (_ & _ & Hup).
  apply Hup. by exists "", "".
Defined.

(** ** http: what the gzip middleware sends *)

Section GzipStream.
Import Http Fixtures Trace.
Variable deflate : list byte -> list byte.
Variable gzipFooter : list byte -> list byte.

(** A run of calls on the wrapper around a compressor that writes to a
    connection: the compressor is fed the payload of the calls, stays open,
    and the connection has received the gzip header at most once. *)
Lemma run_gzip (calls : list Call) :
  forall (c : Conn) (g : gzipWriter) (s n : Z) (usr : string),
    closed g = false -> target g = ToResponseWriter ->
    (- 2 ^ 63 <= n < 2 ^ 63)%Z ->
    exists c' g' s',
      run calls (ResponseWriter (gzipResponseWriter (ConnWriter c) g) s n usr)
      = ResponseWriter (gzipResponseWriter (ConnWriter c') g') s'
          (int_wrap (n + Z.of_nat (length (payload calls)))) usr /\
      closed g' = false /\ target g' = ToResponseWriter /\
      fed g' = (fed g ++ payload calls)%list /\
      (body c' ++ (if wroteHeader g' then [] else gzipHeader))%list
      = (body c ++ (if wroteHeader g then [] else gzipHeader))%list.
Proof.
  induction calls as [| call calls IH]; intros c g s n usr Hcl Htg Hn.
  - exists c, g, s. cbn [payload length]. rewrite Z.add_0_r, app_nil_r.
    by rewrite int_wrap_small.
  - rewrite run_cons. destruct call as [x | p | | k v]; cbn [do_call payload].
    + cbn [WriteHeader].
      destruct (IH (conn_WriteHeader c x) g x n usr Hcl Htg Hn)
        as (c' & g' & s' & -> & ? & ? & ? & ?). by exists c', g', s'.
    + cbn [Write]. rewrite Hcl, Htg. cbn [fst snd].
      destruct (IH (if wroteHeader g then c else conn_Write c gzipHeader)
                  {| target := ToResponseWriter; wroteHeader := true;
                     fed := (fed g ++ p)%list; closed := false |}
                  s (int_add n (Z.of_nat (length p))) usr
                  eq_refl eq_refl (int_wrap_range _))
        as (c' & g' & s' & Hrun & Hcl' & Htg' & Hfed & Hbody).
      exists c', g', s'. split; [| split; [done | split; [done | split]]].
      * destruct (wroteHeader g); cbn [Write fst] in *; rewrite Hrun;
          unfold int_add; rewrite int_wrap_add_l, length_app; do 2 f_equal; lia.
      * rewrite Hfed. cbn [fed]. by rewrite app_assoc.
      * rewrite Hbody. cbn [wroteHeader].
        destruct (wroteHeader g); [reflexivity |].
        by rewrite app_nil_r.
    + cbn [Flush isFlusher].
      destruct (implFlusher c) eqn:Hf.
      * destruct (IH (conn_Flush c) g s n usr Hcl Htg Hn)
          as (c' & g' & s' & -> & ? & ? & ? & ?). by exists c', g', s'.
      * destruct (IH c g s n usr Hcl Htg Hn)
          as (c' & g' & s' & -> & ? & ? & ? & ?). by exists c', g', s'.
    + cbn [Header_update].
      destruct (IH (conn_Header (Set_ k v) c) g s n usr Hcl Htg Hn)
        as (c' & g' & s' & -> & ? & ? & ? & ?). by exists c', g', s'.
Qed.

(** Closing after the deferred function, for a byte count that is not
    negative. *)
Lemma close_after_run (c : Conn) (g : gzipWriter) (s n : Z) (usr : string) :
  closed g = false -> target g = ToResponseWriter -> (0 <= n)%Z ->
  exists c',
    close_gzw deflate gzipFooter
      (gzip_deferred
         (ResponseWriter (gzipResponseWriter (ConnWriter c) g) s n usr))
    = ConnWriter c' /\
    body c' = ((body c ++ (if wroteHeader g then [] else gzipHeader))
               ++ deflate (fed g) ++ gzipFooter (fed g))%list /\
    Get (hdr c') "Content-Length" = Itoa n.
Proof.
  intros Hcl Htg Hn. rewrite gzip_deferred_nonneg by done.
  cbn [close_gzw Header_update]. unfold gz_Close, emit. rewrite Hcl, Htg.
  destruct (wroteHeader g); cbn [Write fst]; eexists;
    (split; [reflexivity |]); cbn [body hdr conn_Write conn_WriteHeader conn_Header];
    (split; [| apply Get_Set]); rewrite <- ?app_assoc; by rewrite ?app_nil_r.
Qed.

End GzipStream.

(** X13.  For a request that accepts gzip (and is no upgrade and no HEAD) on
    an untouched connection, with a handler that sends the status line itself
    or writes, sets only statuses that allow a body and declares no length:
    when the middleware returns, the connection has received, after what it
    held, the gzip header, the compressed form of all bytes the handler
    wrote, in order, and the footer for those bytes; the header map holds the
    number of bytes the handler wrote under [Content-Length] (not the number
    of compressed bytes sent).  The bytes written must be fewer than 2^63. *)
Theorem MiddlewareGZip_stream
    (deflate gzipFooter : list byte -> list byte)
    (calls : list Fixtures.Call) (c : Http.Conn) (r : Http.Request)
    (logs : list Http.LogRecord) :
  Http.Contains (Http.Get (Http.ReqHeader r) "Accept-Encoding") "gzip" = true ->
  Http.Contains (Http.ToLower (Http.Get (Http.ReqHeader r) "Connection"))
    "upgrade" = false ->
  Http.Method r <> "HEAD" ->
  Trace.untouched c = true ->
  Trace.keeps_body calls = true ->
  Trace.sends_status calls = true ->
  (Z.of_nat (length (Trace.payload calls)) < 2 ^ 63)%Z ->
  exists c',
    Http.MiddlewareGZip deflate gzipFooter (Fixtures.script calls)
      (Http.ConnWriter c) r logs = (Http.ConnWriter c', logs) /\
    Http.body c'
    = (Http.body c ++ Http.gzipHeader ++ deflate (Trace.payload calls)
       ++ gzipFooter (Trace.payload calls))%list /\
    Http.Get (Http.hdr c') "Content-Length"
    = Http.Itoa (Z.of_nat (length (Trace.payload calls))).
Proof.
  intros Hacc Hup _ _ _ _ Hlen. unfold Http.MiddlewareGZip. rewrite Hacc, Hup.
  cbn [negb Http.WrapResponseWriter Http.isFlusher Http.Header_update].
  unfold Fixtures.script.
  match goal with |- context [Fixtures.run calls ?w] => set (c0 := w) end.
  assert (Hc0 : exists c1, Http.body c1 = Http.body c /\
            c0 = Http.ResponseWriter
                   (Http.gzipResponseWriter (Http.ConnWriter c1)
                      (Http.gz_Reset Http.ToResponseWriter))
                   Http.StatusOK 0 "").
  { subst c0. destruct (_ && _); eexists; (split; [| reflexivity]); reflexivity. }
  destruct Hc0 as (c1 & Hb1 & ->).
  destruct (run_gzip calls c1 (Http.gz_Reset Http.ToResponseWriter)
              Http.StatusOK 0 "" eq_refl eq_refl)
    as (c2 & g2 & s2 & Hrun & Hcl & Htg & Hfed & Hbody); [lia |].
  rewrite Hrun. rewrite Z.add_0_l, int_wrap_small by lia.
  destruct (close_after_run deflate gzipFooter c2 g2 s2
              (Z.of_nat (length (Trace.payload calls))) "" Hcl Htg)
    as (c' & Hclose & Hb' & Hcl'); [lia |].
  exists c'. rewrite Hclose. split; [reflexivity |]. split; [| exact Hcl'].
  rewrite Hb', Hbody, Hfed, Hb1. cbn [Http.gz_Reset Http.wroteHeader Http.fed].
  by rewrite <- app_assoc.
Qed.

Lemma MiddlewareGZip_stream_witness :
  exists c',
    Http.MiddlewareGZip (fun p => p) (fun _ => [x00])
      (Fixtures.script [Fixtures.CallWrite [x68]; Fixtures.CallWriteHeader 200;
                        Fixtures.CallWrite [x69]])
      (Fixtures.conn true) (Fixtures.request [("Accept-Encoding", "gzip")]) []
    = (Http.ConnWriter c', []) /\
    Http.body c' = (Http.gzipHeader ++ [x68; x69] ++ [x00])%list /\
    Http.Get (Http.hdr c') "Content-Length" = "2".
Proof.
  apply (MiddlewareGZip_stream (fun p => p) (fun _ => [x00])
           [Fixtures.CallWrite [x68]; Fixtures.CallWriteHeader 200;
            Fixtures.CallWrite [x69]]
           {| Http.implFlusher := true; Http.hdr := ∅; Http.sent := None;
              Http.body := []; Http.flushes := 0 |}
           (Fixtures.request [("Accept-Encoding", "gzip")]) []).
  - reflexivity.
  - reflexivity.
  - discriminate.
  - reflexivity.
  - reflexivity.
  - reflexivity.
  - simpl. lia.
Defined.

Section GzipHeaders.
Import Http.

Lemma Header_Header_update (f : gmap string (list string) -> gmap string (list string))
    (w : Writer) :
  Header (Header_update f w) = f (Header w).
Proof. induction w as [c | u IH s n usr | u IH g]; simpl; by rewrite ?IH. Qed.

End GzipHeaders.

(** X14.  For a request that accepts gzip (and is no upgrade), the inner
    handler runs on a new wrapper whose response headers have
    [Content-Encoding: gzip] and [Accept-Encoding] appended to [Vary].  When
    the request carries an [ETag] header that is not empty and does not start
    with [W/], the response header [ETag] is that tag with [W/] in front;
    otherwise the response [ETag] is left as it was. *)
Theorem MiddlewareGZip_headers
    (deflate gzipFooter : list byte -> list byte) (next : Http.Handler)
    (rw : Http.Writer) (r : Http.Request) (logs : list Http.LogRecord) :
  Http.Contains (Http.Get (Http.ReqHeader r) "Accept-Encoding") "gzip" = true ->
  Http.Contains (Http.ToLower (Http.Get (Http.ReqHeader r) "Connection"))
    "upgrade" = false ->
  exists wrapped,
    Http.MiddlewareGZip deflate gzipFooter next rw r logs
    = (Http.close_gzw deflate gzipFooter
         (Http.gzip_deferred (fst (next wrapped r logs))),
       snd (next wrapped r logs)) /\
    Http.status wrapped = 200%Z /\ Http.written wrapped = 0%Z /\
    Http.Get (Http.Header wrapped) "Content-Encoding" = "gzip" /\
    Http.Header wrapped !! "Vary"
    = Some (default [] (Http.Header rw !! "Vary") ++ ["Accept-Encoding"])%list /\
    (Http.Get (Http.ReqHeader r) "ETag" <> "" ->
     Http.HasPrefix (Http.Get (Http.ReqHeader r) "ETag") "W/" = false ->
     Http.Get (Http.Header wrapped) "ETag"
     = "W/" ++ Http.Get (Http.ReqHeader r) "ETag") /\
    (Http.Get (Http.ReqHeader r) "ETag" = ""
     \/ Http.HasPrefix (Http.Get (Http.ReqHeader r) "ETag") "W/" = true ->
     Http.Header wrapped !! "ETag" = Http.Header rw !! "ETag").
Proof.
  intros Hacc Hup. unfold Http.MiddlewareGZip. rewrite Hacc, Hup.
  cbn [negb Http.WrapResponseWriter Http.isFlusher].
  match goal with |- context [next ?w r logs] => exists w end.
  split; [by destruct (next _ r logs) |].
  destruct (String.eqb_spec (Http.Get (Http.ReqHeader r) "ETag") "") as [He | He];
    destruct (Http.HasPrefix (Http.Get (Http.ReqHeader r) "ETag") "W/") eqn:Hp;
    cbn [negb andb Http.Header_update Http.status Http.written Http.Header];
    rewrite !Header_Header_update;
    (split; [reflexivity |]); (split; [reflexivity |]).
  all: split;
    [rewrite ?Get_Set_ne, ?Get_Add_ne by discriminate; apply Get_Set |].
  all: split;
    [unfold Http.Set_, Http.Add;
     rewrite ?lookup_insert_ne by discriminate;
     rewrite lookup_insert_eq, lookup_insert_ne by discriminate; reflexivity |].
  all: split;
    [intros Hne Hnp; try congruence; apply Get_Set
    | intros [Hempty | Hweak]; try congruence;
      unfold Http.Set_, Http.Add; by rewrite !lookup_insert_ne by discriminate].
Qed.

Lemma MiddlewareGZip_headers_witness :
  exists wrapped,
    Http.MiddlewareGZip (fun p => p) (fun _ => []) (Fixtures.probe "inner")
      (Fixtures.conn true)
      (Fixtures.request [("Accept-Encoding", "gzip, br"); ("ETag", "abc")]) []
    = (Http.close_gzw (fun p => p) (fun _ => [])
         (Http.gzip_deferred
            (fst (Fixtures.probe "inner" wrapped
                    (Fixtures.request
                       [("Accept-Encoding", "gzip, br"); ("ETag", "abc")]) []))),
       [Fixtures.mark "inner"]) /\
    Http.Get (Http.Header wrapped) "Content-Encoding" = "gzip" /\
    Http.Get (Http.Header wrapped) "ETag" = "W/abc".
Proof.
  destruct (MiddlewareGZip_headers (fun p => p) (fun _ => [])
              (Fixtures.probe "inner") (Fixtures.conn true)
              (Fixtures.request [("Accept-Encoding", "gzip, br"); ("ETag", "abc")])
              [] eq_refl eq_refl)
    as (wrapped & Hrun & _ & _ & Hce & _ & Hetag & _).
  exists wrapped. split; [exact Hrun |]. split; [exact Hce |].
  apply Hetag; [discriminate | reflexivity].
Defined.

(** ** http: decoding a body *)

(** X15.  [DecodeAndClose] closes the reader only after a successful decode:
    when decoding fails the reader is returned as it was, not closed, with the
    decoder's error prefixed by [decode json: ].  The value returned is always
    what the decoder produced, also when closing fails; the call succeeds
    exactly when both decoding and closing do. *)
Theorem DecodeAndClose_closes_after_success {T : Type}
    (json_Decode : list byte -> T * option string) (rw : Middleware.ReadCloser) :
  fst (snd (Middleware.DecodeAndClose json_Decode rw))
    = fst (json_Decode (Middleware.content rw)) /\
  (forall e, snd (json_Decode (Middleware.content rw)) = Some e ->
     fst (Middleware.DecodeAndClose json_Decode rw) = rw /\
     snd (snd (Middleware.DecodeAndClose json_Decode rw))
       = Some ("decode json: " ++ e)) /\
  (snd (json_Decode (Middleware.content rw)) = None ->
     Middleware.isClosed (fst (Middleware.DecodeAndClose json_Decode rw)) = true /\
     snd (snd (Middleware.DecodeAndClose json_Decode rw))
       = match Middleware.closeErr rw with
         | Some e => Some ("close reader: " ++ e)
         | None => None
         end) /\
  (snd (snd (Middleware.DecodeAndClose json_Decode rw)) = None
     <-> snd (json_Decode (Middleware.content rw)) = None
         /\ Middleware.closeErr rw = None).
Proof.
  unfold Middleware.DecodeAndClose, Middleware.Decode, Middleware.Close.
  destruct (json_Decode (Middleware.content rw)) as [v [e |]]; cbn [fst snd].
  - split; [reflexivity |]. split; [by intros e' [= <-] |].
    split; [done |]. split; [done | by intros [? _]].
  - destruct (Middleware.closeErr rw) as [e |]; cbn [fst snd Middleware.isClosed].
    + split; [reflexivity |]. split; [done |]. split; [done |].
      split; [done | by intros [_ ?]].
    + done.
Qed.

Lemma DecodeAndClose_closes_after_success_witness :
  fst (Middleware.DecodeAndClose
         (fun _ : list byte => (0%Z, Some "unexpected EOF"))
         {| Middleware.content := []; Middleware.isClosed := false;
            Middleware.closeErr := None |})
  = {| Middleware.content := []; Middleware.isClosed := false;
       Middleware.closeErr := None |} /\
  snd (snd (Middleware.DecodeAndClose
              (fun _ : list byte => (0%Z, Some "unexpected EOF"))
              {| Middleware.content := []; Middleware.isClosed := false;
                 Middleware.closeErr := None |}))
  = Some "decode json: unexpected EOF".
Proof.
  destruct (DecodeAndClose_closes_after_success
              (fun _ : list byte => (0%Z, Some "unexpected EOF"))
              {| Middleware.content := []; Middleware.isClosed := false;
                 Middleware.closeErr := None |}) as (_ & Hfail & _).
  exact (Hfail "unexpected EOF" eq_refl).
Defined.

(** ** db: the mapping from project and network to an item *)

Section MappingFacts.
Import Http.
Context {T : Type}.
Variable zero : T.
Variable toLower : string -> string.

Lemma lower_idempotent (c : ascii) : lower (lower c) = lower c.
Proof. destruct c as [[] [] [] [] [] [] [] []]; reflexivity. Qed.

Lemma ToLower_idempotent (s : string) : ToLower (ToLower s) = ToLower s.
Proof.
  induction s as [| c s IH]; simpl; [reflexivity |].
  by rewrite lower_idempotent, IH.
Qed.

Lemma Get_stored (d : gmap string (gmap string T)) (p n : string) :
  Db.Get zero d p n
  = match Db.stored d p n with Some x => (x, true) | None => (zero, false) end.
Proof.
  unfold Db.Get, Db.stored. destruct (d !! p) as [inner |]; [| reflexivity].
  by destruct (inner !! n).
Qed.

(** One round of the loop on the stored items. *)
Lemma stored_insert (d : gmap string (gmap string T)) (inner : gmap string T)
    (P N : string) (x : T) (p n : string) :
  (match d !! P with Some i => i | None => ∅ end) = inner ->
  Db.stored (<[P := <[N := x]> inner]> d) p n
  = if decide (P = p /\ N = n) then Some x else Db.stored d p n.
Proof.
  intros Hin. unfold Db.stored.
  destruct (decide (P = p)) as [-> | Hp].
  - rewrite lookup_insert_eq. destruct (decide (N = n)) as [-> | Hn].
    + rewrite lookup_insert_eq. by rewrite decide_True.
    + rewrite lookup_insert_ne by done. rewrite decide_False by tauto.
      subst inner. by destruct (d !! p).
  - rewrite lookup_insert_ne by done. by rewrite decide_False by tauto.
Qed.

Lemma new_loop_spec (networks : list string) (items : list T) :
  forall (projects : list string) (i : nat)
         (d : gmap string (gmap string T)) (logs : list LogRecord),
    (i + length projects <= length networks)%nat ->
    (i + length projects <= length items)%nat ->
    exists d' logs',
      Db.new_loop toLower i projects networks items d logs = Some (d', logs') /\
      (forall j p n x,
         projects !! j = Some p -> networks !! (i + j)%nat = Some n ->
         items !! (i + j)%nat = Some x ->
         (forall j' p' n', (j < j')%nat -> projects !! j' = Some p' ->
            networks !! (i + j')%nat = Some n' ->
            ~ (toLower p' = toLower p /\ toLower n' = toLower n)) ->
         Db.stored d' (toLower p) (toLower n) = Some x) /\
      (forall p n,
         (forall j p' n', projects !! j = Some p' ->
            networks !! (i + j)%nat = Some n' ->
            ~ (toLower p' = p /\ toLower n' = n)) ->
         Db.stored d' p n = Db.stored d p n).
Proof.
  induction projects as [| P projects IH]; intros i d logs Hn Hi.
  - exists d, logs. split; [reflexivity |]. split; [| done].
    intros j p n x Hj. by rewrite lookup_nil in Hj.
  - simpl in Hn, Hi. cbn [Db.new_loop].
    destruct (lookup_lt_is_Some_2 networks i) as [N HN]; [lia |].
    destruct (lookup_lt_is_Some_2 items i) as [x0 Hx0]; [lia |].
    rewrite HN, Hx0.
    set (d1 := match d !! toLower P with
               | Some _ => d
               | None => <[toLower P := ∅]> d
               end).
    assert (Hd1 : exists inner, d1 !! toLower P = Some inner /\
              (match d !! toLower P with Some i => i | None => ∅ end) = inner /\
              <[toLower P := <[toLower N := x0]> inner]> d1
              = <[toLower P := <[toLower N := x0]> inner]> d).
    { subst d1. destruct (d !! toLower P) as [inner |] eqn:Hd.
      - by exists inner.
      - exists ∅. rewrite lookup_insert_eq. split; [done |]. split; [done |].
        by rewrite insert_insert_eq. }
    destruct Hd1 as (inner & -> & Hinner & ->).
    match goal with
    | |- context [Db.new_loop toLower (S i) projects networks items ?dd ?ll] =>
        destruct (IH (S i) dd ll) as (d' & logs' & Hloop & Hlast & Hrest);
          [lia | lia |]
    end.
    exists d', logs'. split; [exact Hloop |]. split.
    + intros [| j] p n x Hj Hnet Hit Hlater.
      * simpl in Hj. injection Hj as ->.
        rewrite Nat.add_0_r in Hnet, Hit.
        rewrite HN in Hnet. injection Hnet as ->.
        rewrite Hx0 in Hit. injection Hit as ->.
        rewrite Hrest.
        -- rewrite (stored_insert d inner _ _ _ _ _ Hinner).
           by rewrite decide_True.
        -- intros j' p' n' Hp' Hn'. apply (Hlater (S j') p' n'); [lia | done |].
           by replace (i + S j')%nat with (S i + j')%nat by lia.
      * simpl in Hj. apply (Hlast j p n x Hj).
        -- by replace (S i + j)%nat with (i + S j)%nat by lia.
        -- by replace (S i + j)%nat with (i + S j)%nat by lia.
        -- intros j' p' n' Hlt Hp' Hn'. apply (Hlater (S j') p' n'); [lia | done |].
           by replace (i + S j')%nat with (S i + j')%nat by lia.
    + intros p n Hnone. rewrite Hrest.
      * rewrite (stored_insert d inner _ _ _ _ _ Hinner).
        rewrite decide_False; [reflexivity |].
        apply (Hnone 0%nat P N); [reflexivity |]. by rewrite Nat.add_0_r.
      * intros j p' n' Hp' Hn'. apply (Hnone (S j) p' n'); [done |].
        by replace (i + S j)%nat with (S i + j)%nat by lia.
Qed.

End MappingFacts.

(** X16.  [NewMapping] rejects lists of different lengths, logging nothing.
    For lists of one length it never panics and returns a mapping in which,
    for every index, the lower-cased project and network of that index lead to
    the item at the greatest index with the same lower-cased pair; a pair that
    no index lower-cases to is not found.  [Get] looks names up as they are
    given, so (lower-casing a lower-cased name changes nothing) a name that is
    not its own lower-case form is never found.  [ToLower] is
    [strings.ToLower]. *)
Theorem NewMapping_Get {T : Type} (zero : T) (typeName : string)
    (ToLower : string -> string)
    (projects networks : list string) (items : list T)
    (logs : list Http.LogRecord) :
  (length projects <> length networks \/ length networks <> length items ->
   exists msg,
     Db.NewMapping typeName ToLower projects networks items logs
     = Some (Http.Err msg, logs)) /\
  (length projects = length networks -> length networks = length items ->
   exists d logs',
     Db.NewMapping typeName ToLower projects networks items logs
     = Some (Http.Ok d, logs') /\
     (forall j p n x,
        projects !! j = Some p -> networks !! j = Some n ->
        items !! j = Some x ->
        (forall j' p' n', (j < j')%nat -> projects !! j' = Some p' ->
           networks !! j' = Some n' ->
           ~ (ToLower p' = ToLower p /\ ToLower n' = ToLower n)) ->
        Db.Get zero d (ToLower p) (ToLower n) = (x, true)) /\
     (forall p n,
        (forall j p' n', projects !! j = Some p' -> networks !! j = Some n' ->
           ~ (ToLower p' = p /\ ToLower n' = n)) ->
        Db.Get zero d p n = (zero, false)) /\
     ((forall s, ToLower (ToLower s) = ToLower s) ->
      forall p n, ToLower p <> p \/ ToLower n <> n ->
        Db.Get zero d p n = (zero, false))).
Proof.
  unfold Db.NewMapping. split.
  - intros Hne. eexists.
    destruct (Nat.eqb_spec (length projects) (length networks));
      destruct (Nat.eqb_spec (length networks) (length items));
      simpl; try reflexivity. lia.
  - intros H1 H2.
    rewrite (proj2 (Nat.eqb_eq _ _) H1), (proj2 (Nat.eqb_eq _ _) H2). simpl.
    destruct (new_loop_spec ToLower networks items projects 0 ∅ logs)
      as (d & logs' & -> & Hlast & Hrest); [lia | lia |].
    assert (Hmiss : forall p n,
              (forall j p' n', projects !! j = Some p' ->
                 networks !! j = Some n' ->
                 ~ (ToLower p' = p /\ ToLower n' = n)) ->
              Db.Get zero d p n = (zero, false)).
    { intros p n Hnone. rewrite Get_stored, (Hrest p n Hnone).
      unfold Db.stored. by rewrite lookup_empty. }
    exists d, logs'. split; [reflexivity |]. split; [| split; [exact Hmiss |]].
    + intros j p n x Hp Hn Hx Hlater.
      by rewrite Get_stored, (Hlast j p n x Hp Hn Hx Hlater).
    + intros Hidem p n Hcase. apply Hmiss. intros j p' n' _ _ [Hp' Hn'].
      destruct Hcase as [Hc | Hc]; apply Hc.
      * by rewrite <- Hp', Hidem.
      * by rewrite <- Hn', Hidem.
Qed.

(** On ASCII names [strings.ToLower] is [Http.ToLower]. *)
Lemma NewMapping_Get_witness :
  exists d logs',
    Db.NewMapping "[]int" Http.ToLower
      ["IPFS"; "ipfs"] ["Amino"; "AMINO"] [1%Z; 2%Z] []
    = Some (Http.Ok d, logs') /\
    Db.Get 0%Z d "ipfs" "amino" = (2%Z, true) /\
    Db.Get 0%Z d "IPFS" "amino" = (0%Z, false).
Proof.
  destruct (NewMapping_Get 0%Z "[]int" Http.ToLower
              ["IPFS"; "ipfs"] ["Amino"; "AMINO"] [1%Z; 2%Z] []) as [_ Hok].
  destruct (Hok eq_refl eq_refl) as (d & logs' & Hnew & Hlast & _ & Hcase).
  exists d, logs'. split; [exact Hnew |]. split.
  - apply (Hlast 1%nat "ipfs" "AMINO" 2%Z); try reflexivity.
    intros [| [| j']] p' n' Hlt Hp'; try lia. discriminate.
  - apply (Hcase ToLower_idempotent). left. discriminate.
Defined.

(** ** http: logging in front of the gzip middleware *)

Section LoggedGzip.
Import Http Fixtures Trace.
Variable deflate : list byte -> list byte.
Variable gzipFooter : list byte -> list byte.

(** A run of calls on the gzip wrapper when the writer below the compressor
    is itself a [*ResponseWriter] around a connection (the wrapper of a
    middleware further out): that wrapper records the status codes, counts
    the gzip header once it is sent, and keeps its user. *)
Lemma run_gzip_wrapped (calls : list Call) :
  forall (c : Conn) (g : gzipWriter) (s1 n1 : Z) (u1 : string)
         (s n : Z) (usr : string),
    closed g = false -> target g = ToResponseWriter ->
    (- 2 ^ 63 <= n1)%Z ->
    (n1 + (if wroteHeader g then 0 else 10) < 2 ^ 63)%Z ->
    (- 2 ^ 63 <= n < 2 ^ 63)%Z ->
    exists c' g' n1' s',
      run calls
        (ResponseWriter
           (gzipResponseWriter (ResponseWriter (ConnWriter c) s1 n1 u1) g)
           s n usr)
      = ResponseWriter
          (gzipResponseWriter
             (ResponseWriter (ConnWriter c') (List.last (codes calls) s1) n1' u1)
             g')
          s' (int_wrap (n + Z.of_nat (length (payload calls)))) usr /\
      closed g' = false /\ target g' = ToResponseWriter /\
      fed g' = (fed g ++ payload calls)%list /\
      (- 2 ^ 63 <= n1')%Z /\
      (n1' + (if wroteHeader g' then 0 else 10)
       = n1 + (if wroteHeader g then 0 else 10))%Z.
Proof.
  induction calls as [| call calls IH];
    intros c g s1 n1 u1 s n usr Hcl Htg Hlo Hhi Hn.
  - exists c, g, n1, s. cbn [payload codes omap List.last length].
    by rewrite app_nil_r, Z.add_0_r, int_wrap_small.
  - rewrite run_cons. destruct call as [x | p | | k v]; cbn [do_call payload].
    + cbn [WriteHeader].
      destruct (IH (conn_WriteHeader c x) g x n1 u1 x n usr Hcl Htg Hlo Hhi Hn)
        as (c' & g' & n1' & s' & -> & ? & ? & ? & ? & ?).
      exists c', g', n1', s'.
      change (codes (CallWriteHeader x :: calls)) with (x :: codes calls).
      by rewrite last_cons_default.
    + change (codes (CallWrite p :: calls)) with (codes calls).
      assert (Hcount : int_wrap (int_add n (Z.of_nat (length p))
                                 + Z.of_nat (length (payload calls)))
                       = int_wrap (n + Z.of_nat (length (p ++ payload calls)))).
      { unfold int_add. rewrite int_wrap_add_l, length_app. f_equal. lia. }
      cbn [Write]. rewrite Hcl, Htg. cbn [fst snd].
      destruct (wroteHeader g) eqn:Hwh.
      * destruct (IH c {| target := ToResponseWriter; wroteHeader := true;
                          fed := (fed g ++ p)%list; closed := false |}
                    s1 n1 u1 s (int_add n (Z.of_nat (length p))) usr
                    eq_refl eq_refl Hlo Hhi (int_wrap_range _))
          as (c' & g' & n1' & s' & -> & ? & ? & Hfed & ? & ?).
        exists c', g', n1', s'. rewrite Hcount. repeat (split; [done |]).
        split; [| done]. rewrite Hfed. cbn [fed]. by rewrite app_assoc.
      * cbn [Write fst].
        assert (Hadd : int_add n1 (Z.of_nat (length gzipHeader)) = (n1 + 10)%Z).
        { unfold int_add. rewrite int_wrap_small; simpl; lia. }
        rewrite Hadd.
        destruct (IH (conn_Write c gzipHeader)
                    {| target := ToResponseWriter; wroteHeader := true;
                       fed := (fed g ++ p)%list; closed := false |}
                    s1 (n1 + 10)%Z u1 s (int_add n (Z.of_nat (length p))) usr
                    eq_refl eq_refl)
          as (c' & g' & n1' & s' & -> & ? & ? & Hfed & ? & Hsum);
          [lia | cbn [wroteHeader]; lia | apply int_wrap_range |].
        exists c', g', n1', s'. rewrite Hcount. repeat (split; [done |]).
        split; [| split; [done |]].
        -- rewrite Hfed. cbn [fed]. by rewrite app_assoc.
        -- cbn [wroteHeader] in Hsum. lia.
    + change (codes (CallFlush :: calls)) with (codes calls).
      cbn [Flush isFlusher].
      destruct (implFlusher c);
        [destruct (IH (conn_Flush c) g s1 n1 u1 s n usr Hcl Htg Hlo Hhi Hn)
           as (c' & g' & n1' & s' & -> & ? & ? & ? & ? & ?)
        | destruct (IH c g s1 n1 u1 s n usr Hcl Htg Hlo Hhi Hn)
           as (c' & g' & n1' & s' & -> & ? & ? & ? & ? & ?)];
        by exists c', g', n1', s'.
    + change (codes (CallHeaderSet k v :: calls)) with (codes calls).
      cbn [Header_update].
      destruct (IH (conn_Header (Set_ k v) c) g s1 n1 u1 s n usr
                  Hcl Htg Hlo Hhi Hn)
        as (c' & g' & n1' & s' & -> & ? & ? & ? & ? & ?).
      by exists c', g', n1', s'.
Qed.

(** Closing writes through that wrapper, which counts the header (if it is
    still due), the compressed bytes and the footer. *)
Lemma close_wrapped (c : Conn) (g : gzipWriter) (s1 n1 : Z) (u1 : string)
    (s n : Z) (usr : string) :
  closed g = false -> target g = ToResponseWriter -> (0 <= n)%Z ->
  (- 2 ^ 63 <= n1)%Z ->
  (n1 + (if wroteHeader g then 0 else 10)
   + Z.of_nat (length (deflate (fed g)))
   + Z.of_nat (length (gzipFooter (fed g))) < 2 ^ 63)%Z ->
  exists c',
    close_gzw deflate gzipFooter
      (gzip_deferred
         (ResponseWriter
            (gzipResponseWriter (ResponseWriter (ConnWriter c) s1 n1 u1) g)
            s n usr))
    = ResponseWriter (ConnWriter c') s1
        (n1 + (if wroteHeader g then 0 else 10)
         + Z.of_nat (length (deflate (fed g)))
         + Z.of_nat (length (gzipFooter (fed g))))%Z u1.
Proof.
  intros Hcl Htg Hn Hlo Hhi. rewrite gzip_deferred_nonneg by done.
  cbn [close_gzw Header_update]. unfold gz_Close, emit. rewrite Hcl, Htg.
  destruct (wroteHeader g); cbn [Write fst]; eexists; f_equal;
    unfold int_add; rewrite ?int_wrap_add_l;
    change (Z.of_nat (length gzipHeader)) with 10%Z;
    rewrite ?(int_wrap_small (n1 + 10)) by lia;
    (rewrite int_wrap_small; lia).
Qed.

(** The access log entry when logging is in front of the gzip middleware,
    for an inner handler that makes the given calls on the wrapper it gets,
    whatever user it sets on it first. *)
Lemma logged_gzip_entry (next : Handler) (calls : list Call) (c : Conn)
    (r : Request) (logs : list LogRecord) :
  (forall u s n usr0, exists usr',
     next (ResponseWriter u s n usr0) r logs
     = (run calls (ResponseWriter u s n usr'), logs)) ->
  implFlusher c = true ->
  Contains (Get (ReqHeader r) "Accept-Encoding") "gzip" = true ->
  Contains (ToLower (Get (ReqHeader r) "Connection")) "upgrade" = false ->
  (Z.of_nat (length (payload calls)) < 2 ^ 63)%Z ->
  (10 + Z.of_nat (length (deflate (payload calls)))
   + Z.of_nat (length (gzipFooter (payload calls))) < 2 ^ 63)%Z ->
  exists e,
    snd (MiddlewareLogging (MiddlewareGZip deflate gzipFooter next)
           (ConnWriter c) r logs) = (logs ++ [e])%list /\
    In ("status", AInt (List.last (codes calls) 200)) (attrs e) /\
    In ("size",
        AInt (10 + Z.of_nat (length (deflate (payload calls)))
              + Z.of_nat (length (gzipFooter (payload calls))))) (attrs e) /\
    In ("user", AString "") (attrs e).
Proof.
  intros Hnext Hf Hacc Hup Hlen Hsize.
  assert (Hw : WrapResponseWriter (ConnWriter c)
               = Ok (ResponseWriter (ConnWriter c) StatusOK 0 ""))
    by (simpl; by rewrite Hf).
  destruct (Logging_wrapped (MiddlewareGZip deflate gzipFooter next)
              (ConnWriter c) r logs _ Hw)
    as (e & Heq & _ & Hst & Hsz & Husr & _).
  assert (Hgz : exists c',
            MiddlewareGZip deflate gzipFooter next
              (ResponseWriter (ConnWriter c) StatusOK 0 "") r logs
            = (ResponseWriter (ConnWriter c') (List.last (codes calls) 200)
                 (10 + Z.of_nat (length (deflate (payload calls)))
                  + Z.of_nat (length (gzipFooter (payload calls))))%Z "",
               logs)).
  { unfold MiddlewareGZip. rewrite Hacc, Hup.
    cbn [negb WrapResponseWriter isFlusher Header_update].
    match goal with |- context [next ?w r logs] => set (w0 := w) end.
    assert (Hw0 : exists c1,
              w0 = ResponseWriter
                     (gzipResponseWriter
                        (ResponseWriter (ConnWriter c1) StatusOK 0 "")
                        (gz_Reset ToResponseWriter)) StatusOK 0 "").
    { subst w0. destruct (_ && _); by eexists. }
    destruct Hw0 as (c1 & ->).
    destruct (Hnext (gzipResponseWriter
                       (ResponseWriter (ConnWriter c1) StatusOK 0 "")
                       (gz_Reset ToResponseWriter)) StatusOK 0 "")
      as [usr' ->].
    destruct (run_gzip_wrapped calls c1 (gz_Reset ToResponseWriter)
                StatusOK 0 "" StatusOK 0 usr' eq_refl eq_refl)
      as (c2 & g2 & n2 & s2 & -> & Hcl & Htg & Hfed & Hlo & Hsum);
      [lia | cbn [gz_Reset wroteHeader]; lia | lia |].
    cbn [gz_Reset wroteHeader fed] in Hsum, Hfed. rewrite app_nil_l in Hfed.
    destruct (close_wrapped c2 g2 (List.last (codes calls) StatusOK) n2 ""
                s2 (int_wrap (0 + Z.of_nat (length (payload calls)))) usr'
                Hcl Htg) as (c' & ->).
    - rewrite Z.add_0_l, int_wrap_small; lia.
    - exact Hlo.
    - rewrite Hfed. lia.
    - exists c'. rewrite Hfed. do 2 f_equal. lia. }
  destruct Hgz as (c' & Hgz). rewrite Hgz in Heq, Hst, Hsz, Husr.
  cbn [fst snd status written user] in Heq, Hst, Hsz, Husr.
  exists e. rewrite Heq. by cbn [snd].
Qed.

End LoggedGzip.

(** X17.  With the logging middleware in front of the gzip middleware, on an
    untouched connection that can flush, for a request that accepts gzip and
    a handler that sends the status line itself or writes, sets only statuses
    that allow a body and declares no length: the size in the access log
    entry is the number of bytes sent on the connection, that is the ten
    bytes of the gzip header, the compressed bytes and the footer, not the
    number of bytes the handler wrote; the status is the last one the handler
    set (200 if none).  All counts must stay below 2^63. *)
Theorem logging_gzip_logs_compressed_size
    (deflate gzipFooter : list byte -> list byte)
    (calls : list Fixtures.Call) (c : Http.Conn) (r : Http.Request)
    (logs : list Http.LogRecord) :
  Http.implFlusher c = true ->
  Http.Contains (Http.Get (Http.ReqHeader r) "Accept-Encoding") "gzip" = true ->
  Http.Contains (Http.ToLower (Http.Get (Http.ReqHeader r) "Connection"))
    "upgrade" = false ->
  Trace.untouched c = true ->
  Trace.keeps_body calls = true ->
  Trace.sends_status calls = true ->
  (Z.of_nat (length (Trace.payload calls)) < 2 ^ 63)%Z ->
  (10 + Z.of_nat (length (deflate (Trace.payload calls)))
   + Z.of_nat (length (gzipFooter (Trace.payload calls))) < 2 ^ 63)%Z ->
  exists e,
    snd (Http.MiddlewareLogging
           (Http.MiddlewareGZip deflate gzipFooter (Fixtures.script calls))
           (Http.ConnWriter c) r logs) = (logs ++ [e])%list /\
    In ("status", Http.AInt (List.last (Fixtures.codes calls) 200))
       (Http.attrs e) /\
    In ("size",
        Http.AInt (10 + Z.of_nat (length (deflate (Trace.payload calls)))
                   + Z.of_nat (length (gzipFooter (Trace.payload calls)))))
       (Http.attrs e).
Proof.
  intros Hf Hacc Hup _ _ _ Hlen Hsize.
  destruct (logged_gzip_entry deflate gzipFooter (Fixtures.script calls) calls
              c r logs) as (e & Hlog & Hst & Hsz & _); try done.
  - intros u s n usr0. by exists usr0.
  - by exists e.
Qed.

Lemma logging_gzip_logs_compressed_size_witness :
  exists e,
    snd (Http.MiddlewareLogging
           (Http.MiddlewareGZip (fun p => p) (fun _ => [x00; x00])
              (Fixtures.script [Fixtures.CallWrite [x68; x69; x21]]))
           (Fixtures.conn true)
           (Fixtures.request [("Accept-Encoding", "gzip")]) []) = [e] /\
    In ("status", Http.AInt 200) (Http.attrs e) /\
    In ("size", Http.AInt 15) (Http.attrs e).
Proof.
  apply (logging_gzip_logs_compressed_size (fun p => p) (fun _ => [x00; x00])
           [Fixtures.CallWrite [x68; x69; x21]]
           {| Http.implFlusher := true; Http.hdr := ∅; Http.sent := None;
              Http.body := []; Http.flushes := 0 |}
           (Fixtures.request [("Accept-Encoding", "gzip")]) []);
    try reflexivity; simpl; lia.
Defined.

(** X18.  An identity attached behind the gzip middleware does not reach a
    logging middleware in front of it: the gzip middleware hands the inner
    handlers a wrapper of its own, so with the order logging, gzip,
    authentication the access log entry of a request with a known key has an
    empty user. *)
Theorem logging_gzip_auth_loses_user
    (deflate gzipFooter : list byte -> list byte)
    (json_text : Http.Json -> list byte) (Quote : string -> string)
    (lookup : gmap string string) (usr : string)
    (calls : list Fixtures.Call) (c : Http.Conn) (r : Http.Request)
    (logs : list Http.LogRecord) :
  Http.Get (Http.ReqHeader r) "X-API-Key" <> "" ->
  lookup !! Http.Get (Http.ReqHeader r) "X-API-Key" = Some usr ->
  Http.implFlusher c = true ->
  Http.Contains (Http.Get (Http.ReqHeader r) "Accept-Encoding") "gzip" = true ->
  Http.Contains (Http.ToLower (Http.Get (Http.ReqHeader r) "Connection"))
    "upgrade" = false ->
  (Z.of_nat (length (Trace.payload calls)) < 2 ^ 63)%Z ->
  (10 + Z.of_nat (length (deflate (Trace.payload calls)))
   + Z.of_nat (length (gzipFooter (Trace.payload calls))) < 2 ^ 63)%Z ->
  exists e,
    snd (Http.MiddlewareLogging
           (Http.MiddlewareGZip deflate gzipFooter
              (Http.authenticate json_text Quote lookup (Fixtures.script calls)))
           (Http.ConnWriter c) r logs) = (logs ++ [e])%list /\
    In ("user", Http.AString "") (Http.attrs e).
Proof.
  intros Hk Hl Hf Hacc Hup Hlen Hsize.
  destruct (logged_gzip_entry deflate gzipFooter
              (Http.authenticate json_text Quote lookup (Fixtures.script calls))
              calls c r logs) as (e & Hlog & _ & _ & Husr); try done.
  - intros u s n usr0. exists usr.
    by rewrite (authenticate_known_key json_text Quote lookup _
                  (Http.ResponseWriter u s n usr0) r logs usr
                  (Http.ResponseWriter u s n usr0) Hk Hl eq_refl).
  - by exists e.
Qed.

Lemma logging_gzip_auth_loses_user_witness :
  exists e,
    snd (Http.MiddlewareLogging
           (Http.MiddlewareGZip (fun p => p) (fun _ => [])
              (Http.authenticate Fixtures.no_text Fixtures.quote
                 {["secret" := "alice"]} (Fixtures.script [])))
           (Fixtures.conn true)
           (Fixtures.request
              [("Accept-Encoding", "gzip"); ("X-API-Key", "secret")]) [])
    = [e] /\
    In ("user", Http.AString "") (Http.attrs e).
Proof.
  apply (logging_gzip_auth_loses_user (fun p => p) (fun _ => [])
           Fixtures.no_text Fixtures.quote {["secret" := "alice"]} "alice" []
           {| Http.implFlusher := true; Http.hdr := ∅; Http.sent := None;
              Http.body := []; Http.flushes := 0 |}
           (Fixtures.request
              [("Accept-Encoding", "gzip"); ("X-API-Key", "secret")]) []);
    try reflexivity; try discriminate; simpl; lia.
Defined.

(** ** db: ClickHouse configurations *)

Section ClickHouseFacts.
Import ClickHouse.

Lemma configs_loop_fills (base : option ClickHouseBaseConfig) :
  forall (dbs : list string) (i : nat) (filled : list (option ClickHouseConfig)),
    length filled = i ->
    configs_loop base i dbs (filled ++ replicate (length dbs) None)
    = (filled
       ++ List.map (fun db => Some {| BaseConfig := base; Database := db |}) dbs)%list.
Proof.
  induction dbs as [| db dbs IH]; intros i filled Hlen; [reflexivity |].
  cbn [configs_loop length replicate List.map].
  rewrite insert_app_r_alt by lia.
  replace (i - length filled)%nat with 0%nat by lia. cbn [insert list_insert].
  rewrite (cons_middle _ filled), app_assoc.
  rewrite (IH (S i)) by (rewrite length_app; simpl; lia).
  by rewrite <- app_assoc.
Qed.

Lemma check_names_None (dbs : list string) :
  check_names dbs = None <-> Forall (fun db => db <> "") dbs.
Proof.
  induction dbs as [| db dbs IH]; simpl; [by split |].
  destruct (String.eqb_spec db "") as [-> | Hne].
  - split; [done |]. intros H. by inversion H.
  - rewrite IH. split; [by constructor | intros H; by inversion H].
Qed.

Lemma check_names_message (dbs : list string) (err : string) :
  check_names dbs = Some err -> err = "database name must not be empty".
Proof.
  induction dbs as [| db dbs IH]; simpl; [done |].
  destruct (String.eqb db ""); [by intros [= <-] | exact IH].
Qed.

End ClickHouseFacts.

(** X19.  [Configs] returns one config per database name, in the order of the
    names, each with the shared base config, and leaves no slot nil.  A multi
    config validates exactly when it names at least one database and every
    config of [Configs] validates. *)
Theorem ClickHouse_Configs_validate (cfg : ClickHouse.ClickHouseMultiConfig) :
  ClickHouse.Configs cfg
  = List.map (fun db => Some {| ClickHouse.BaseConfig := ClickHouse.MultiBaseConfig cfg;
                                ClickHouse.Database := db |})
      (ClickHouse.Databases cfg) /\
  (ClickHouse.MultiConfig_Validate (Some cfg) = None <->
   ClickHouse.Databases cfg <> [] /\
   Forall (fun c => ClickHouse.Config_Validate c = None) (ClickHouse.Configs cfg)).
Proof.
  assert (Hcfgs : ClickHouse.Configs cfg
          = List.map (fun db => Some {| ClickHouse.BaseConfig := ClickHouse.MultiBaseConfig cfg;
                                        ClickHouse.Database := db |})
              (ClickHouse.Databases cfg)).
  { unfold ClickHouse.Configs.
    exact (configs_loop_fills _ (ClickHouse.Databases cfg) 0 [] eq_refl). }
  split; [exact Hcfgs |]. rewrite Hcfgs. clear Hcfgs.
  unfold ClickHouse.MultiConfig_Validate.
  destruct (ClickHouse.Databases cfg) as [| db dbs] eqn:Hdbs.
  - simpl. split; [done | by intros [? _]].
  - cbn [length Nat.eqb].
    destruct (ClickHouse.check_names (db :: dbs)) as [err |] eqn:Hnames.
    + split; [done |]. intros [_ Hall]. exfalso.
      assert (Hnone : ClickHouse.check_names (db :: dbs) = None).
      { apply check_names_None. apply Forall_forall. intros d Hd.
        rewrite Forall_forall in Hall.
        specialize (Hall (Some {| ClickHouse.BaseConfig := ClickHouse.MultiBaseConfig cfg;
                                  ClickHouse.Database := d |})).
        assert (Hc : ClickHouse.Config_Validate
                       (Some {| ClickHouse.BaseConfig := ClickHouse.MultiBaseConfig cfg;
                                ClickHouse.Database := d |}) = None).
        { apply Hall. apply list_elem_of_In, in_map_iff. exists d. split; [done |].
          by apply list_elem_of_In. }
        intros ->. simpl in Hc. discriminate. }
      congruence.
    + apply check_names_None in Hnames. split.
      * intros Hbase. split; [done |]. apply Forall_forall. intros c Hc.
        apply list_elem_of_In, in_map_iff in Hc as (d & <- & Hd).
        rewrite Forall_forall in Hnames.
        apply list_elem_of_In in Hd. specialize (Hnames d Hd).
        unfold ClickHouse.Config_Validate. cbn [ClickHouse.Database ClickHouse.BaseConfig].
        by rewrite (eqb_empty_false _ Hnames).
      * intros [_ Hall]. inversion Hall as [| c cs Hc _]; subst.
        unfold ClickHouse.Config_Validate in Hc.
        cbn [ClickHouse.Database ClickHouse.BaseConfig] in Hc.
        by destruct (String.eqb db "").
Qed.

(** X20.  The default ClickHouse config for a name, and the default multi
    config, validate exactly when the name is not empty: the name is both the
    user and the database. *)
Theorem DefaultClickHouseConfig_valid_iff (name : string) :
  (ClickHouse.Config_Validate (Some (ClickHouse.DefaultClickHouseConfig name)) = None
     <-> name <> "") /\
  (ClickHouse.MultiConfig_Validate
     (Some (ClickHouse.DefaultClickHouseMultiConfig name)) = None
     <-> name <> "").
Proof.
  unfold ClickHouse.Config_Validate, ClickHouse.MultiConfig_Validate,
    ClickHouse.DefaultClickHouseMultiConfig, ClickHouse.DefaultClickHouseConfig,
    ClickHouse.BaseConfig_Validate.
  cbn [ClickHouse.Database ClickHouse.BaseConfig ClickHouse.Databases
       ClickHouse.MultiBaseConfig ClickHouse.Host ClickHouse.Port
       ClickHouse.User ClickHouse.Pass length Nat.eqb ClickHouse.check_names].
  destruct (String.eqb_spec name "") as [-> | Hne]; simpl; split; split; done.
Qed.
